(** * E-commerce backend: controllers over a document store and a read-through cache

    A shallow embedding of the request handlers of
    [backend/src/controllers/order.ts], [backend/dist/controllers/product.js]
    and of the [adminOnly] middleware.  A handler is a function from the
    request data and the state of the world (cache and collections) to an
    outcome and a new state of the world.

    What the handlers import from files that are not part of the sources at
    hand ([app.js], [utils/features.js], the Mongoose models and their
    schemas) or from the JavaScript runtime is collected in the class
    [Collaborators]. *)

From Stdlib Require Import ZArith QArith Ascii String List Lia.
From stdpp Require Import base option strings list gmap pretty.

Set Warnings "-register-all".

Local Open Scope Z_scope.
Local Open Scope string_scope.

(** ** JavaScript values *)

(** A number of the runtime.  [Int z] is an integer that the runtime prints
    in decimal digits, as it prints every integer of absolute value below
    [1e21]; [Float printed] is any other number (a fraction, a number too
    large to be printed in digits, an infinity), given by the text the
    runtime prints for it, such as [1.5], [1e+21] or [Infinity].  [NaN] is
    not among them: a conversion that yields [NaN] yields [None] here. *)
Inductive number : Type :=
| Int (z : Z)
| Float (printed : string).

(** A number inside a template literal. *)
Definition number_text (n : number) : string :=
  match n with
  | Int z => pretty z
  | Float printed => printed
  end.

(** [!n] on a number: [0] is falsy, every other number is truthy. *)
Definition is_zero (n : number) : bool :=
  match n with
  | Int z => Z.eqb z 0
  | Float _ => false
  end.

(** A plain value, as [JSON.parse] and the parsers of request bodies produce
    it.  The fields of a multipart form are strings. *)
Inductive json : Type :=
| JNull
| JBool (b : bool)
| JNum (n : number)
| JStr (s : string)
| JArr (items : list json)
| JObj (members : list (string * json)).

(** Truthiness of a value that may be [undefined]: [!v] holds for
    [undefined], [null], [false], [0] and the empty string.  Every other
    string is truthy, the text [0] included, and so is every array and
    every object, the empty ones included. *)
Definition truthy (v : option json) : bool :=
  match v with
  | None => false
  | Some JNull => false
  | Some (JBool b) => b
  | Some (JNum n) => negb (is_zero n)
  | Some (JStr s) => negb (String.eqb s "")
  | Some (JArr _) => true
  | Some (JObj _) => true
  end.

(** Truthiness of a string that may be [undefined]: [!s] holds for
    [undefined] and for the empty string. *)
Definition truthy_str (s : option string) : bool :=
  match s with
  | Some s => negb (String.eqb s "")
  | None => false
  end.

(** Truthiness of a document that a query may not have found: [null] is
    falsy, every document is truthy. *)
Definition truthy_obj {A : Type} (o : option A) : bool :=
  match o with
  | Some _ => true
  | None => false
  end.

(** ** Data model *)

Record User : Type := mkUser {
  u_id : string;
  u_name : string;
  u_photo : string;
  role : string
}.

Record Photo : Type := mkPhoto {
  public_id : string;
  url : string
}.

Record Product : Type := mkProduct {
  p_id : string;
  name : string;
  price : number;
  stock : number;
  category : string;
  description : string;
  photos : list Photo;
  ratings : Q;
  numOfReviews : Z
}.

Record OrderItem : Type := mkOrderItem {
  productId : string;
  quantity : Z
}.

Record Order : Type := mkOrder {
  o_id : string;
  shippingInfo : json;
  orderItems : list OrderItem;
  user : string;
  subtotal : number;
  tax : number;
  shippingCharges : option number;
  discount : option number;
  total : number;
  status : string
}.

Record Review : Type := mkReview {
  comment : string;
  rating : Z;
  r_user : string;
  r_product : string
}.

(** [populate("user", "name")]: the user reference replaced by the fields
    selected from the referenced user, or by [null] when there is none. *)
Record PopulatedOrder : Type := mkPopulatedOrder {
  po_order : Order;
  po_user : option (string * string)
}.

Record PopulatedReview : Type := mkPopulatedReview {
  pr_review : Review;
  pr_user : option (string * string * string)
}.

(** What a handler puts in a response or hands to [JSON.stringify]. *)
Inductive jsval : Type :=
| VUndefined
| VJson (j : json)
| VNumber (n : number)
| VOrders (l : list Order)
| VPopulatedOrders (l : list PopulatedOrder)
| VPopulatedOrder (o : PopulatedOrder)
| VProducts (l : list Product)
| VProduct (p : Product)
| VCategories (l : list string)
| VReviews (l : list PopulatedReview)
| VObject (members : list (string * jsval)).

(** ** The cache store *)

Record CacheEntry : Type := mkCacheEntry {
  payload : string;
  ttl : Z
}.

Definition redis_get (c : gmap string CacheEntry) (key : string) : option string :=
  payload <$> c !! key.

Definition redis_setex (c : gmap string CacheEntry) (key : string) (seconds : Z)
    (value : string) : gmap string CacheEntry :=
  <[key := mkCacheEntry value seconds]> c.

(** [if (cached)] on the result of [redis.get]: [null] and the empty string
    are falsy. *)
Definition cache_hit (cached : option string) : bool := truthy_str cached.

(** ** The world *)

Record World : Type := mkWorld {
  redis : gmap string CacheEntry;
  products : list Product;
  orders : list Order;
  reviews : list Review;
  users : list User;
  cloudinary_deleted : list string
}.

Definition set_redis (w : World) (c : gmap string CacheEntry) : World :=
  mkWorld c (products w) (orders w) (reviews w) (users w) (cloudinary_deleted w).

Definition set_products (w : World) (l : list Product) : World :=
  mkWorld (redis w) l (orders w) (reviews w) (users w) (cloudinary_deleted w).

Definition set_orders (w : World) (l : list Order) : World :=
  mkWorld (redis w) (products w) l (reviews w) (users w) (cloudinary_deleted w).

Definition set_reviews (w : World) (l : list Review) : World :=
  mkWorld (redis w) (products w) (orders w) l (users w) (cloudinary_deleted w).

Definition log_cloudinary_delete (w : World) (ids : list string) : World :=
  mkWorld (redis w) (products w) (orders w) (reviews w) (users w)
    (cloudinary_deleted w ++ ids).

(** ** Outcomes of a handler *)

(** [new ErrorHandler(message, statusCode)]. *)
Record ErrorHandler : Type := mkErrorHandler {
  message : string;
  statusCode : Z
}.

Inductive Outcome : Type :=
| Json (status : Z) (success : bool) (fields : list (string * jsval))
| NextError (e : ErrorHandler)
| NextOk
| Throws.

Definition msg (s : string) : list (string * jsval) := [("message", VJson (JStr s))].

(** ** Collaborators *)

(** The tag set [invalidateCache] accepts.  A tag that a call site leaves out
    is [undefined] there, which is falsy: [false], [None], no product ids. *)
Record InvalidateCacheProps : Type := mkInvalidateCacheProps {
  ic_product : bool;
  ic_order : bool;
  ic_admin : bool;
  ic_review : bool;
  ic_userId : option string;
  ic_orderId : option string;
  ic_productId : list string
}.

(** The filter object [getAllProducts] builds for [Product.find]; the
    price is [Number(price)], which may be [NaN]. *)
Record BaseQuery : Type := mkBaseQuery {
  bq_name : option string;
  bq_price : option (option number);
  bq_category : option string
}.

(** The body of a request to [newOrder]: each field is absent or the value
    the client sent. *)
Record NewOrderRequestBody : Type := mkNewOrderRequestBody {
  b_shippingInfo : option json;
  b_orderItems : option json;
  b_user : option json;
  b_subtotal : option json;
  b_tax : option json;
  b_shippingCharges : option json;
  b_discount : option json;
  b_total : option json
}.

(** What the controllers use and the sources at hand do not define.
    - [redisTTL]: the configured time to live, exported by [app.js];
    - [JSON_parse] ([None]: a [SyntaxError]) and [JSON_stringify];
    - [Number]: conversion of a string to a number ([None]: [NaN]);
    - [String_of]: conversion to a string, as [String(v)] and a template
      literal make it, of a value that is not a string;
    - [toLowerCase]: the method of that name of the strings;
    - [float_pred_times page limit] is [(page - 1) * limit] and
      [float_ceil_div n limit] is [Math.ceil(n / limit)] in the arithmetic
      of the runtime, for numbers that are not all integers;
    - [PRODUCT_PER_PAGE]: the environment variable of that name;
    - [invalidateCache], [uploadToCloudinary] and [reduceStock], exported
      by [utils/features.js]; [reduceStock] yields the products it leaves in
      the store, and whether it returned ([true]) or threw ([false]), which
      it may do after it has saved some of them;
    - [cast_String] and [cast_Number]: what the schema of the products
      makes of a value given for a path of that type ([None]: the document
      fails the validation of the schema, and creating or saving it throws);
    - [Order_create]: the document that [Order.create] builds from the
      values handed to it, with the casts and the defaults of the schema of
      the orders ([None]: they fail its validation, and it throws);
    - the evaluation of Mongoose queries that order documents by the
      timestamps of the schema, select distinct values, match a regular
      expression ignoring case, compare a price with a number of which one is
      not an integer ([float_lte]), or sort, limit and skip ([None]: the
      store rejects the query). *)
Class Collaborators : Type := {
  redisTTL : Z;
  JSON_parse : string -> option json;
  JSON_stringify : jsval -> string;
  Number : string -> option number;
  String_of : json -> string;
  toLowerCase : string -> string;
  float_pred_times : number -> number -> number;
  float_ceil_div : Z -> number -> number;
  PRODUCT_PER_PAGE : option string;
  invalidateCache :
    InvalidateCacheProps -> gmap string CacheEntry -> gmap string CacheEntry;
  uploadToCloudinary : list string -> list Photo;
  reduceStock : option json -> list Product -> list Product * bool;
  cast_String : json -> option string;
  cast_Number : json -> option number;
  Order_create : NewOrderRequestBody -> option Order;
  sort_createdAt_desc : list Product -> list Product;
  sort_updatedAt_desc : list Review -> list Review;
  distinct : list string -> list string;
  regex_i : string -> string -> bool;
  float_lte : number -> number -> bool;
  sort_limit_skip :
    option bool -> number -> number -> list Product -> option (list Product)
}.

(** ** Queries on the document store *)

Definition User_findById (l : list User) (id : option string) : option User :=
  match id with
  | Some id => List.find (fun u => String.eqb (u_id u) id) l
  | None => None
  end.

Definition Product_findById (l : list Product) (id : string) : option Product :=
  List.find (fun p => String.eqb (p_id p) id) l.

Definition Order_findById (l : list Order) (id : string) : option Order :=
  List.find (fun o => String.eqb (o_id o) id) l.

(** [Review.findOne({ user, product })]. *)
Definition review_of (u p : string) (r : Review) : bool :=
  String.eqb (r_user r) u && String.eqb (r_product r) p.

Definition Review_findOne (l : list Review) (u p : string) : option Review :=
  List.find (review_of u p) l.

(** [doc.save()] of a document obtained from a query: the stored document
    with that identity is rewritten.  Identities are unique in a collection,
    so it is the first one the query matched. *)
Fixpoint update_first {A : Type} (is_doc : A -> bool) (doc : A) (l : list A) : list A :=
  match l with
  | [] => []
  | x :: l' => if is_doc x then doc :: l' else x :: update_first is_doc doc l'
  end.

Definition Product_save (p : Product) (l : list Product) : list Product :=
  update_first (fun x => String.eqb (p_id x) (p_id p)) p l.

Definition Order_save (o : Order) (l : list Order) : list Order :=
  update_first (fun x => String.eqb (o_id x) (o_id o)) o l.

Definition populate_order_user (us : list User) (o : Order) : PopulatedOrder :=
  mkPopulatedOrder o
    ((fun u => (u_id u, u_name u)) <$> User_findById us (Some (user o))).

Definition populate_review_user (us : list User) (r : Review) : PopulatedReview :=
  mkPopulatedReview r
    ((fun u => (u_id u, u_name u, u_photo u)) <$> User_findById us (Some (r_user r))).

(** [doc.deleteOne()] of a document obtained from a query: the stored
    document with that identity is removed, the first one the query matched. *)
Fixpoint delete_first {A : Type} (is_doc : A -> bool) (l : list A) : list A :=
  match l with
  | [] => []
  | x :: l' => if is_doc x then l' else x :: delete_first is_doc l'
  end.

Definition Product_deleteOne (p : Product) (l : list Product) : list Product :=
  delete_first (fun x => String.eqb (p_id x) (p_id p)) l.

Definition Order_deleteOne (o : Order) (l : list Order) : list Order :=
  delete_first (fun x => String.eqb (o_id x) (o_id o)) l.

(** ** Helpers of the JavaScript runtime *)

(** A string that may be [undefined], inside a template literal. *)
Definition interpolate (s : option string) : string :=
  match s with
  | Some s => s
  | None => "undefined"
  end.

(** A value inside a template literal. *)
Definition text_of `{Collaborators} (v : json) : string :=
  match v with
  | JStr s => s
  | _ => String_of v
  end.

(** [Number(s) || d] for a string that may be [undefined]:
    [Number(undefined)] is [NaN], and [NaN] and [0] are falsy. *)
Definition Number_or `{Collaborators} (s : option string) (d : Z) : number :=
  match s ≫= Number with
  | Some n => if is_zero n then Int d else n
  | None => Int d
  end.

(** [Math.ceil(a / b)] on integers, [b] not [0]. *)
Definition ceil_div (a b : Z) : Z := - ((- a) / b).

(** [(page - 1) * limit] and [Math.ceil(n / limit)].  On integers they are
    computed here, exactly, as the runtime computes them on the integers it
    represents exactly; a quotient by [0] is not an integer. *)
Definition pred_times `{Collaborators} (page limit : number) : number :=
  match page, limit with
  | Int p, Int l => Int ((p - 1) * l)
  | _, _ => float_pred_times page limit
  end.

Definition Math_ceil_div `{Collaborators} (n : Z) (limit : number) : number :=
  match limit with
  | Int l => if Z.eqb l 0 then float_ceil_div n limit else Int (ceil_div n l)
  | Float _ => float_ceil_div n limit
  end.

(** [{ $lte: n }] on a price. *)
Definition lte `{Collaborators} (a n : number) : bool :=
  match a, n with
  | Int x, Int y => Z.leb x y
  | _, _ => float_lte a n
  end.

Definition error (m : string) (code : Z) : Outcome := NextError (mkErrorHandler m code).

(** ** [controllers/order.ts] *)

(** The status [processOrder] assigns: its [switch]. *)
Definition next_status (s : string) : string :=
  if String.eqb s "Processing" then "Shipped"
  else if String.eqb s "Shipped" then "Delivered"
  else "Delivered".

Definition set_status (o : Order) (s : string) : Order :=
  mkOrder (o_id o) (shippingInfo o) (orderItems o) (user o) (subtotal o) (tax o)
    (shippingCharges o) (discount o) (total o) s.

(** The identity the store gives a document it creates. *)
Definition set_o_id (o : Order) (id : string) : Order :=
  mkOrder id (shippingInfo o) (orderItems o) (user o) (subtotal o) (tax o)
    (shippingCharges o) (discount o) (total o) (status o).

(** The test [newOrder] makes on the body before it creates the order. *)
Definition newOrder_rejects (body : NewOrderRequestBody) : bool :=
  negb (truthy (b_shippingInfo body)) || negb (truthy (b_orderItems body))
  || negb (truthy (b_user body)) || negb (truthy (b_subtotal body))
  || negb (truthy (b_tax body)) || negb (truthy (b_total body)).

Section OrderController.
Context `{Collaborators}.

Definition myOrders (query_id : option string) (w : World) : Outcome * World :=
  match query_id with
  | None => (error "Invalid user ID" 400, w)
  | Some userId =>
    if negb (truthy_str (Some userId)) then (error "Invalid user ID" 400, w)
    else
      let key := "my-orders-" ++ userId in
      let cached := redis_get (redis w) key in
      if cache_hit cached then
        match cached ≫= JSON_parse with
        | Some parsed => (Json 200 true [("orders", VJson parsed)], w)
        | None => (Throws, w)
        end
      else
        let found := VOrders (List.filter (fun o => String.eqb (user o) userId) (orders w)) in
        (Json 200 true [("orders", found)],
         set_redis w (redis_setex (redis w) key redisTTL (JSON_stringify found)))
  end.

Definition allOrders (w : World) : Outcome * World :=
  let key := "all-orders" in
  let cached := redis_get (redis w) key in
  if cache_hit cached then
    match cached ≫= JSON_parse with
    | Some parsed => (Json 200 true [("orders", VJson parsed)], w)
    | None => (Throws, w)
    end
  else
    let found := VPopulatedOrders (populate_order_user (users w) <$> orders w) in
    (Json 200 true [("orders", found)],
     set_redis w (redis_setex (redis w) key redisTTL (JSON_stringify found))).

Definition getSingleOrder (id : string) (w : World) : Outcome * World :=
  if negb (truthy_str (Some id)) then (error "Order ID is required" 400, w)
  else
    let key := "order-" ++ id in
    let cached := redis_get (redis w) key in
    if cache_hit cached then
      match cached ≫= JSON_parse with
      | Some parsed => (Json 200 true [("order", VJson parsed)], w)
      | None => (Throws, w)
      end
    else
      match populate_order_user (users w) <$> Order_findById (orders w) id with
      | None => (error "Order not found" 404, w)
      | Some o =>
        let found := VPopulatedOrder o in
        (Json 200 true [("order", found)],
         set_redis w (redis_setex (redis w) key redisTTL (JSON_stringify found)))
      end.

(** [new_id] is the identity the store gives the created order.  The
    order is stored before the stock is reduced; when [reduceStock] throws,
    the handler throws with the order stored and with the products as
    [reduceStock] left them. *)
Definition newOrder (body : NewOrderRequestBody) (new_id : string) (w : World)
    : Outcome * World :=
  if newOrder_rejects body then (error "Please enter all required fields" 400, w)
  else
    match Order_create body with
    | None => (Throws, w)
    | Some created =>
      let order := set_o_id created new_id in
      let w1 := set_orders w (orders w ++ [order]) in
      let reduced := reduceStock (b_orderItems body) (products w1) in
      let w2 := set_products w1 (fst reduced) in
      if snd reduced then
        let tags :=
          mkInvalidateCacheProps true true true false (text_of <$> b_user body) None
            (productId <$> orderItems order) in
        (Json 201 true (msg "Order placed successfully"),
         set_redis w2 (invalidateCache tags (redis w2)))
      else (Throws, w2)
    end.

Definition processOrder (id : string) (w : World) : Outcome * World :=
  if negb (truthy_str (Some id)) then (error "Order ID is required" 400, w)
  else
    match Order_findById (orders w) id with
    | None => (error "Order not found" 404, w)
    | Some order =>
      let order := set_status order (next_status (status order)) in
      let w1 := set_orders w (Order_save order (orders w)) in
      let tags :=
        mkInvalidateCacheProps false true true false (Some (user order))
          (Some (o_id order)) [] in
      (Json 200 true (msg "Order processed successfully"),
       set_redis w1 (invalidateCache tags (redis w1)))
    end.

Definition deleteOrder (id : string) (w : World) : Outcome * World :=
  if negb (truthy_str (Some id)) then (error "Order ID is required" 400, w)
  else
    match Order_findById (orders w) id with
    | None => (error "Order not found" 404, w)
    | Some order =>
      let w1 := set_orders w (Order_deleteOne order (orders w)) in
      let tags :=
        mkInvalidateCacheProps false true true false (Some (user order))
          (Some (o_id order)) [] in
      (Json 200 true (msg "Order deleted successfully"),
       set_redis w1 (invalidateCache tags (redis w1)))
    end.

End OrderController.

(** ** The rating aggregator *)

Definition ratings_of (pid : string) (l : list Review) : list Z :=
  rating <$> List.filter (fun r => String.eqb (r_product r) pid) l.

Definition sum_ratings (rs : list Z) : Z := foldr Z.add 0 rs.

(** Modelled from the spec: [findAverageRatings], which the product
    controller imports from [utils/features.js]; that file is not among the
    sources.  Given a product id it scans the reviews that reference the
    product and yields the arithmetic mean of their ratings ([0] when there
    are none) and their count. *)
Definition findAverageRatings (l : list Review) (pid : string) : Q * Z :=
  let rs := ratings_of pid l in
  let count := Z.of_nat (length rs) in
  if Z.eqb count 0 then (0%Q, 0)
  else ((inject_Z (sum_ratings rs) / inject_Z count)%Q, count).

(** ** [controllers/product.js] *)

Record ProductsQuery : Type := mkProductsQuery {
  q_search : option string;
  q_sort : option string;
  q_category : option string;
  q_price : option string;
  q_page : option string
}.

Record ReviewBody : Type := mkReviewBody {
  rb_comment : string;
  rb_rating : Z
}.

(** The bodies of the requests to [newProduct] and [updateProduct]: each
    field is absent or the value the client sent, a string when the request
    is a multipart form, as a request with files is. *)
Record NewProductRequestBody : Type := mkNewProductRequestBody {
  np_name : option json;
  np_price : option json;
  np_stock : option json;
  np_category : option json;
  np_description : option json
}.

Record UpdateProductBody : Type := mkUpdateProductBody {
  ub_name : option json;
  ub_price : option json;
  ub_stock : option json;
  ub_category : option json;
  ub_description : option json
}.

Definition set_name (p : Product) (v : string) : Product :=
  mkProduct (p_id p) v (price p) (stock p) (category p) (description p) (photos p)
    (ratings p) (numOfReviews p).

Definition set_price (p : Product) (v : number) : Product :=
  mkProduct (p_id p) (name p) v (stock p) (category p) (description p) (photos p)
    (ratings p) (numOfReviews p).

Definition set_stock (p : Product) (v : number) : Product :=
  mkProduct (p_id p) (name p) (price p) v (category p) (description p) (photos p)
    (ratings p) (numOfReviews p).

Definition set_category (p : Product) (v : string) : Product :=
  mkProduct (p_id p) (name p) (price p) (stock p) v (description p) (photos p)
    (ratings p) (numOfReviews p).

Definition set_description (p : Product) (v : string) : Product :=
  mkProduct (p_id p) (name p) (price p) (stock p) (category p) v (photos p)
    (ratings p) (numOfReviews p).

Definition set_photos (p : Product) (v : list Photo) : Product :=
  mkProduct (p_id p) (name p) (price p) (stock p) (category p) (description p) v
    (ratings p) (numOfReviews p).

Definition set_ratings (p : Product) (r : Q) (n : Z) : Product :=
  mkProduct (p_id p) (name p) (price p) (stock p) (category p) (description p)
    (photos p) r n.

(** [if (v) doc.field = v].  The field takes what the schema makes of the
    value.  A document that was assigned a value the schema refuses fails
    validation when it is saved: it is [None] from then on. *)
Definition assign {A : Type} (v : option json) (cast : json -> option A)
    (set : Product -> A -> Product) (doc : option Product) : option Product :=
  if truthy v then doc ≫= (fun p => set p <$> (v ≫= cast)) else doc.

(** [photos && photos.length > 0] on [req.files]. *)
Definition has_photos (files : option (list string)) : bool :=
  match files with
  | Some l => Z.ltb 0 (Z.of_nat (length l))
  | None => false
  end.

(** Member access [data.k] on a parsed value: a [TypeError] ([None]) on
    [null], [undefined] on a value without that member.  The members of an
    object are keyed uniquely. *)
Definition member (data : json) (k : string) : option jsval :=
  match data with
  | JNull => None
  | JObj members =>
    Some (match List.find (fun kv => String.eqb (fst kv) k) members with
          | Some kv => VJson (snd kv)
          | None => VUndefined
          end)
  | _ => Some VUndefined
  end.

(** The key of [getAllProducts]. *)
Definition products_key `{Collaborators} (q : ProductsQuery) : string :=
  "products-" ++ interpolate (q_search q) ++ "-" ++ interpolate (q_sort q) ++ "-"
  ++ interpolate (q_category q) ++ "-" ++ interpolate (q_price q) ++ "-"
  ++ number_text (Number_or (q_page q) 1).

Definition base_query `{Collaborators} (q : ProductsQuery) : BaseQuery :=
  mkBaseQuery
    (if truthy_str (q_search q) then q_search q else None)
    (if truthy_str (q_price q) then Some (q_price q ≫= Number) else None)
    (if truthy_str (q_category q) then q_category q else None).

Definition matches `{Collaborators} (b : BaseQuery) (p : Product) : bool :=
  match bq_name b with Some re => regex_i re (name p) | None => true end
  && match bq_price b with
     | Some (Some n) => lte (price p) n
     | Some None => false
     | None => true
     end
  && match bq_category b with Some c => String.eqb (category p) c | None => true end.

Definition Product_find `{Collaborators} (b : BaseQuery) (l : list Product) : list Product :=
  List.filter (matches b) l.

(** The two branches of [newReview] on [alreadyReviewed]: the review found
    is saved with the comment and the rating of the body, or a review is
    created.  A review the store creates is listed after the ones it holds. *)
Definition save_or_create_review (alreadyReviewed : option Review) (u p : string)
    (body : ReviewBody) (l : list Review) : list Review :=
  match alreadyReviewed with
  | Some r =>
    update_first (review_of u p)
      (mkReview (rb_comment body) (rb_rating body) (r_user r) (r_product r)) l
  | None => (l ++ [mkReview (rb_comment body) (rb_rating body) u p])%list
  end.

Section ProductController.
Context `{Collaborators}.

Definition getlatestProducts (w : World) : Outcome * World :=
  let cached := redis_get (redis w) "latest-products" in
  if cache_hit cached then
    match cached ≫= JSON_parse with
    | Some parsed => (Json 200 true [("products", VJson parsed)], w)
    | None => (Throws, w)
    end
  else
    let found := VProducts (take 5 (sort_createdAt_desc (products w))) in
    (Json 200 true [("products", found)],
     set_redis w (redis_setex (redis w) "latest-products" redisTTL (JSON_stringify found))).

Definition getAllCategories (w : World) : Outcome * World :=
  let cached := redis_get (redis w) "categories" in
  if cache_hit cached then
    match cached ≫= JSON_parse with
    | Some parsed => (Json 200 true [("categories", VJson parsed)], w)
    | None => (Throws, w)
    end
  else
    let found := VCategories (distinct (category <$> products w)) in
    (Json 200 true [("categories", found)],
     set_redis w (redis_setex (redis w) "categories" redisTTL (JSON_stringify found))).

Definition getAdminProducts (w : World) : Outcome * World :=
  let cached := redis_get (redis w) "all-products" in
  if cache_hit cached then
    match cached ≫= JSON_parse with
    | Some parsed => (Json 200 true [("products", VJson parsed)], w)
    | None => (Throws, w)
    end
  else
    let found := VProducts (products w) in
    (Json 200 true [("products", found)],
     set_redis w (redis_setex (redis w) "all-products" redisTTL (JSON_stringify found))).

Definition getSingleProduct (id : string) (w : World) : Outcome * World :=
  let key := "product-" ++ id in
  let cached := redis_get (redis w) key in
  if cache_hit cached then
    match cached ≫= JSON_parse with
    | Some parsed => (Json 200 true [("product", VJson parsed)], w)
    | None => (Throws, w)
    end
  else
    match Product_findById (products w) id with
    | None => (error "Product Not Found" 404, w)
    | Some p =>
      let found := VProduct p in
      (Json 200 true [("product", found)],
       set_redis w (redis_setex (redis w) key redisTTL (JSON_stringify found)))
    end.

Definition getAllProducts (q : ProductsQuery) (w : World) : Outcome * World :=
  let page := Number_or (q_page q) 1 in
  let key := products_key q in
  let cachedData := redis_get (redis w) key in
  if cache_hit cachedData then
    match cachedData ≫= JSON_parse with
    | Some data =>
      match member data "totalPage", member data "products" with
      | Some totalPage, Some found =>
        (Json 200 true [("products", found); ("totalPage", totalPage)], w)
      | _, _ => (Throws, w)
      end
    | None => (Throws, w)
    end
  else
    let limit := Number_or PRODUCT_PER_PAGE 8 in
    let skip := pred_times page limit in
    let baseQuery := base_query q in
    let order :=
      if truthy_str (q_sort q) then Some (String.eqb (interpolate (q_sort q)) "asc")
      else None in
    let filteredOnlyProduct := Product_find baseQuery (products w) in
    match sort_limit_skip order limit skip filteredOnlyProduct with
    | None => (Throws, w)
    | Some productsFetched =>
      let found := VProducts productsFetched in
      let totalPage :=
        VNumber (Math_ceil_div (Z.of_nat (length filteredOnlyProduct)) limit) in
      (Json 200 true [("products", found); ("totalPage", totalPage)],
       set_redis w
         (redis_setex (redis w) key 30
            (JSON_stringify (VObject [("products", found); ("totalPage", totalPage)]))))
    end.

Definition allReviewsOfProduct (id : string) (w : World) : Outcome * World :=
  let key := "reviews-" ++ id in
  let cached := redis_get (redis w) key in
  if cache_hit cached then
    match cached ≫= JSON_parse with
    | Some parsed => (Json 200 true [("reviews", VJson parsed)], w)
    | None => (Throws, w)
    end
  else
    let found :=
      VReviews
        (populate_review_user (users w)
           <$> sort_updatedAt_desc
                 (List.filter (fun r => String.eqb (r_product r) id) (reviews w))) in
    (Json 200 true [("reviews", found)],
     set_redis w (redis_setex (redis w) key redisTTL (JSON_stringify found))).

(** When the schema refuses a value that was assigned, [product.save()]
    throws: the images of the product are already handed to the image host,
    nothing is saved and the cache is not invalidated. *)
Definition updateProduct (id : string) (body : UpdateProductBody)
    (files : option (list string)) (w : World) : Outcome * World :=
  match Product_findById (products w) id with
  | None => (error "Product Not Found" 404, w)
  | Some product =>
    let photosURL := uploadToCloudinary (default [] files) in
    let ids := public_id <$> photos product in
    let w1 := if has_photos files then log_cloudinary_delete w ids else w in
    let product := if has_photos files then set_photos product photosURL else product in
    let doc := Some product in
    let doc := assign (ub_name body) cast_String set_name doc in
    let doc := assign (ub_price body) cast_Number set_price doc in
    let doc := assign (ub_stock body) cast_Number set_stock doc in
    let doc := assign (ub_category body) cast_String set_category doc in
    let doc := assign (ub_description body) cast_String set_description doc in
    match doc with
    | None => (Throws, w1)
    | Some product =>
      let w2 := set_products w1 (Product_save product (products w1)) in
      let tags :=
        mkInvalidateCacheProps true false true false None None [p_id product] in
      (Json 200 true (msg "Product Updated Successfully"),
       set_redis w2 (invalidateCache tags (redis w2)))
    end
  end.

Definition newReview (query_id : option string) (id : string) (body : ReviewBody)
    (w : World) : Outcome * World :=
  match User_findById (users w) query_id with
  | None => (error "Not Logged In" 404, w)
  | Some u =>
    match Product_findById (products w) id with
    | None => (error "Product Not Found" 404, w)
    | Some product =>
      let alreadyReviewed := Review_findOne (reviews w) (u_id u) (p_id product) in
      let w1 :=
        set_reviews w
          (save_or_create_review alreadyReviewed (u_id u) (p_id product) body (reviews w)) in
      let '(avg, count) := findAverageRatings (reviews w1) (p_id product) in
      let product := set_ratings product avg count in
      let w2 := set_products w1 (Product_save product (products w1)) in
      let tags :=
        mkInvalidateCacheProps true false true true None None [p_id product] in
      (Json (if truthy_obj alreadyReviewed then 200 else 201) true
         (msg (if truthy_obj alreadyReviewed then "Review Updated" else "Review Added")),
       set_redis w2 (invalidateCache tags (redis w2)))
    end
  end.

(** [new_id] is the identity the store gives the created product, and
    [defaults] are the ratings and the number of reviews it gives it: the
    schema is not among the sources.  A category that is truthy and not a
    string has no method [toLowerCase]: calling it throws, after the upload.
    [Product.create] throws when the schema refuses a value. *)
Definition newProduct (body : NewProductRequestBody)
    (files : option (list string)) (new_id : string) (defaults : Q * Z) (w : World)
    : Outcome * World :=
  match files with
  | None => (error "Please add Photo" 400, w)
  | Some photos =>
    if Z.ltb (Z.of_nat (length photos)) 1
    then (error "Please add at least one Photo" 400, w)
    else if Z.ltb 5 (Z.of_nat (length photos))
    then (error "You can only upload 5 Photos" 400, w)
    else if negb (truthy (np_name body)) || negb (truthy (np_price body))
            || negb (truthy (np_stock body)) || negb (truthy (np_category body))
            || negb (truthy (np_description body))
    then (error "Please enter All Fields" 400, w)
    else
      let photosURL := uploadToCloudinary photos in
      match np_category body with
      | Some (JStr c) =>
        match np_name body ≫= cast_String, np_price body ≫= cast_Number,
              np_description body ≫= cast_String, np_stock body ≫= cast_Number,
              cast_String (JStr (toLowerCase c)) with
        | Some n, Some pr, Some d, Some st, Some c =>
          let created :=
            mkProduct new_id n pr st c d photosURL (fst defaults) (snd defaults) in
          let w1 := set_products w (products w ++ [created])%list in
          let tags := mkInvalidateCacheProps true false true false None None [] in
          (Json 201 true (msg "Product Created Successfully"),
           set_redis w1 (invalidateCache tags (redis w1)))
        | _, _, _, _, _ => (Throws, w)
        end
      | _ => (Throws, w)
      end
  end.

Definition deleteProduct (id : string) (w : World) : Outcome * World :=
  match Product_findById (products w) id with
  | None => (error "Product Not Found" 404, w)
  | Some product =>
    let ids := public_id <$> photos product in
    let w1 := log_cloudinary_delete w ids in
    let w2 := set_products w1 (Product_deleteOne product (products w1)) in
    let tags :=
      mkInvalidateCacheProps true false true false None None [p_id product] in
    (Json 200 true (msg "Product Deleted Successfully"),
     set_redis w2 (invalidateCache tags (redis w2)))
  end.

(** ** The [adminOnly] middleware *)

Definition adminOnly (query_id : option string) (w : World) : Outcome * World :=
  if negb (truthy_str query_id) then (error "Please log in first" 401, w)
  else
    match User_findById (users w) query_id with
    | None => (error "Invalid ID provided" 401, w)
    | Some u =>
      if negb (String.eqb (role u) "admin")
      then (error "You do not have admin privileges" 403, w)
      else (NextOk, w)
    end.

End ProductController.

(** * Definitions used in the statements

    Predicates, runs of handlers and the read-through pattern, in which the
    properties below are stated. *)

(** ** Orders *)

(** The place of a status on the way from [Processing] to [Delivered]. *)
Definition status_rank (s : string) : nat :=
  if String.eqb s "Processing" then 0%nat
  else if String.eqb s "Shipped" then 1%nat
  else 2%nat.

(** [n] successive calls of [processOrder] on the same order id. *)
Fixpoint processOrder_times `{Collaborators} (n : nat) (id : string) (w : World) : World :=
  match n with
  | O => w
  | S n' => processOrder_times n' id (snd (processOrder id w))
  end.

(** A value of the body that is absent or falsy. *)
Definition missing (v : option json) : Prop :=
  v = None \/ v = Some JNull \/ v = Some (JBool false) \/ v = Some (JNum (Int 0))
  \/ v = Some (JStr "").

(** The body with other shipping charges and another discount. *)
Definition with_charges (body : NewOrderRequestBody) (charges disc : option json)
    : NewOrderRequestBody :=
  mkNewOrderRequestBody (b_shippingInfo body) (b_orderItems body) (b_user body)
    (b_subtotal body) (b_tax body) charges disc (b_total body).

(** ** Products and reviews *)

(** The value of a field after [if (v) p.field = v]: the stored one for a
    falsy [v], what the schema makes of [v] otherwise, which is nothing when
    it refuses [v]. *)
Definition assigned {A : Type} (v : option json) (cast : json -> option A) (old : A)
    : option A :=
  if truthy v then v ≫= cast else Some old.

(** A truthy value that the schema refuses. *)
Definition refused {A : Type} (v : option json) (cast : json -> option A) : Prop :=
  truthy v = true /\ v ≫= cast = None.

(** The product [updateProduct] saves, field by field; none when the schema
    refuses a value. *)
Definition updated_product `{Collaborators} (body : UpdateProductBody)
    (files : option (list string)) (p : Product) : option Product :=
  match assigned (ub_name body) cast_String (name p),
        assigned (ub_price body) cast_Number (price p),
        assigned (ub_stock body) cast_Number (stock p),
        assigned (ub_category body) cast_String (category p),
        assigned (ub_description body) cast_String (description p) with
  | Some n, Some pr, Some st, Some c, Some d =>
    Some (mkProduct (p_id p) n pr st c d
            (if has_photos files then uploadToCloudinary (default [] files)
             else photos p)
            (ratings p) (numOfReviews p))
  | _, _, _, _, _ => None
  end.

(** At most one review for each user and product. *)
Definition one_review_per_pair (l : list Review) : Prop :=
  forall u p, (length (List.filter (review_of u p) l) <= 1)%nat.

(** A submission: the user id of the query, the product id of the path, and
    the body. *)
Record Submission : Type := mkSubmission {
  sub_user : option string;
  sub_product : string;
  sub_body : ReviewBody
}.

(** Successive calls of [newReview]. *)
Fixpoint newReview_all `{Collaborators} (subs : list Submission) (w : World) : World :=
  match subs with
  | [] => w
  | s :: subs' =>
    newReview_all subs' (snd (newReview (sub_user s) (sub_product s) (sub_body s) w))
  end.

(** ** Cache keys *)

(** What a cached view is asked with: one constructor for each key the
    controllers build. *)
Inductive CacheQuery : Type :=
| KProducts (q : ProductsQuery)
| KProduct (id : string)
| KOrder (id : string)
| KMyOrders (userId : string)
| KReviews (id : string)
| KLatestProducts
| KAllProducts
| KAllOrders
| KCategories.

(** The key of a view, as the handler that serves it builds it. *)
Definition cache_key `{Collaborators} (c : CacheQuery) : string :=
  match c with
  | KProducts q => products_key q
  | KProduct id => "product-" ++ id
  | KOrder id => "order-" ++ id
  | KMyOrders userId => "my-orders-" ++ userId
  | KReviews id => "reviews-" ++ id
  | KLatestProducts => "latest-products"
  | KAllProducts => "all-products"
  | KAllOrders => "all-orders"
  | KCategories => "categories"
  end.









(** ** Read endpoints *)

(** A request to one of the read endpoints, with what the handler takes from
    it. *)
Inductive ReadRequest : Type :=
| GetMyOrders (query_id : option string)
| GetAllOrders
| GetSingleOrder (id : string)
| GetLatestProducts
| GetAllCategories
| GetAdminProducts
| GetSingleProduct (id : string)
| GetAllProducts (q : ProductsQuery)
| GetReviews (id : string).

(** The handler of a request. *)
Definition handle `{Collaborators} (r : ReadRequest) : World -> Outcome * World :=
  match r with
  | GetMyOrders query_id => myOrders query_id
  | GetAllOrders => allOrders
  | GetSingleOrder id => getSingleOrder id
  | GetLatestProducts => getlatestProducts
  | GetAllCategories => getAllCategories
  | GetAdminProducts => getAdminProducts
  | GetSingleProduct id => getSingleProduct id
  | GetAllProducts q => getAllProducts q
  | GetReviews id => allReviewsOfProduct id
  end.

(** The cached view a request asks for; none when the handler refuses the
    request before it builds a key. *)
Definition view_of (r : ReadRequest) : option CacheQuery :=
  match r with
  | GetMyOrders query_id =>
    if truthy_str query_id then KMyOrders <$> query_id else None
  | GetAllOrders => Some KAllOrders
  | GetSingleOrder id => if truthy_str (Some id) then Some (KOrder id) else None
  | GetLatestProducts => Some KLatestProducts
  | GetAllCategories => Some KCategories
  | GetAdminProducts => Some KAllProducts
  | GetSingleProduct id => Some (KProduct id)
  | GetAllProducts q => Some (KProducts q)
  | GetReviews id => Some (KReviews id)
  end.

(** The time to live an endpoint stores with. *)
Definition ttl_of `{Collaborators} (r : ReadRequest) : Z :=
  match r with
  | GetAllProducts _ => 30
  | _ => redisTTL
  end.

(** The fields of the response on a hit, from the parsed payload; [None]
    when reading them throws. *)
Definition hit_fields (r : ReadRequest) (parsed : json) : option (list (string * jsval)) :=
  match r with
  | GetMyOrders _ | GetAllOrders => Some [("orders", VJson parsed)]
  | GetSingleOrder _ => Some [("order", VJson parsed)]
  | GetLatestProducts | GetAdminProducts => Some [("products", VJson parsed)]
  | GetAllCategories => Some [("categories", VJson parsed)]
  | GetSingleProduct _ => Some [("product", VJson parsed)]
  | GetAllProducts _ =>
    match member parsed "totalPage", member parsed "products" with
    | Some totalPage, Some found => Some [("products", found); ("totalPage", totalPage)]
    | _, _ => None
    end
  | GetReviews _ => Some [("reviews", VJson parsed)]
  end.

(** What the computation behind an endpoint yields on the document store:
    a value to serialize with the fields of the response, no entity, or a
    query the store rejects. *)
Inductive Fallback : Type :=
| Computed (value : jsval) (fields : list (string * jsval))
| NoEntity (m : string)
| Rejected.

(** A value answered under one field. *)
Definition computed (field : string) (v : jsval) : Fallback := Computed v [(field, v)].

(** The computation of each endpoint, as its handler has it in the branch
    of the miss. *)
Definition fallback `{Collaborators} (r : ReadRequest) (w : World) : Fallback :=
  match r with
  | GetMyOrders query_id =>
    computed "orders"
      (VOrders (List.filter (fun o => String.eqb (user o) (default "" query_id)) (orders w)))
  | GetAllOrders =>
    computed "orders" (VPopulatedOrders (populate_order_user (users w) <$> orders w))
  | GetSingleOrder id =>
    match Order_findById (orders w) id with
    | Some o => computed "order" (VPopulatedOrder (populate_order_user (users w) o))
    | None => NoEntity "Order not found"
    end
  | GetLatestProducts =>
    computed "products" (VProducts (take 5 (sort_createdAt_desc (products w))))
  | GetAllCategories =>
    computed "categories" (VCategories (distinct (category <$> products w)))
  | GetAdminProducts => computed "products" (VProducts (products w))
  | GetSingleProduct id =>
    match Product_findById (products w) id with
    | Some p => computed "product" (VProduct p)
    | None => NoEntity "Product Not Found"
    end
  | GetAllProducts q =>
    let limit := Number_or PRODUCT_PER_PAGE 8 in
    let filtered := Product_find (base_query q) (products w) in
    let order :=
      if truthy_str (q_sort q) then Some (String.eqb (interpolate (q_sort q)) "asc")
      else None in
    match sort_limit_skip order limit (pred_times (Number_or (q_page q) 1) limit)
            filtered with
    | Some fetched =>
      let fields :=
        [("products", VProducts fetched);
         ("totalPage", VNumber (Math_ceil_div (Z.of_nat (length filtered)) limit))] in
      Computed (VObject fields) fields
    | None => Rejected
    end
  | GetReviews id =>
    computed "reviews"
      (VReviews
         (populate_review_user (users w)
            <$> sort_updatedAt_desc
                  (List.filter (fun r => String.eqb (r_product r) id) (reviews w))))
  end.

(** The read-through pattern: what an endpoint does with the cached text
    under its key, and with the result of its computation when there is
    none. *)
Definition read_through `{Collaborators} (r : ReadRequest) (key : string) (w : World)
    : Outcome * World :=
  let cached := redis_get (redis w) key in
  if cache_hit cached then
    match (cached ≫= JSON_parse) ≫= hit_fields r with
    | Some fields => (Json 200 true fields, w)
    | None => (Throws, w)
    end
  else
    match fallback r w with
    | Computed v fields =>
      (Json 200 true fields,
       set_redis w (redis_setex (redis w) key (ttl_of r) (JSON_stringify v)))
    | NoEntity m => (error m 404, w)
    | Rejected => (Throws, w)
    end.

(** Every cached text is non-empty, as the texts [JSON.stringify] yields
    are. *)
Definition payloads_nonempty (c : gmap string CacheEntry) : Prop :=
  forall k e, c !! k = Some e -> payload e <> "".

(** ** What the handlers need of the invalidator *)

(** The invalidator drops, for a tag set that names the products, the keys
    of the product lists and the key of each product it is given. *)
Definition drops_product_keys `{Collaborators} : Prop :=
  forall tags c,
    ic_product tags = true ->
    invalidateCache tags c !! "all-products" = None
    /\ invalidateCache tags c !! "latest-products" = None
    /\ invalidateCache tags c !! "categories" = None
    /\ forall id, id ∈ ic_productId tags ->
                  invalidateCache tags c !! ("product-" ++ id) = None.

(** The invalidator drops, for a tag set that names the orders, the key of
    the list of orders, and the keys of the user and of the order that it is
    given. *)
Definition drops_order_keys `{Collaborators} : Prop :=
  forall tags c,
    ic_order tags = true ->
    invalidateCache tags c !! "all-orders" = None
    /\ (forall u, ic_userId tags = Some u ->
         invalidateCache tags c !! ("my-orders-" ++ u) = None)
    /\ (forall o, ic_orderId tags = Some o ->
         invalidateCache tags c !! ("order-" ++ o) = None).



(** The sort order [getAllProducts] asks the store for: none for a falsy
    [sort], ascending for [asc], descending for any other text. *)
Definition sort_order (q : ProductsQuery) : option bool :=
  if truthy_str (q_sort q) then Some (String.eqb (interpolate (q_sort q)) "asc")
  else None.

(** ** Sample collaborators

    An instance of [Collaborators] on which the handlers run by computation:
    a parser of the JSON texts [null], [[]] and [{}], a serializer that
    writes [null] and the empty lists as JSON does and [{}] for the values it
    does not know, conversions of a few texts to numbers, schemas that take
    a string or a number for a string and a number or the text of one for a
    number, a store that keeps the order of the collection, and an
    invalidator that deletes nothing. *)
Module Sample.

(** [JSON.parse] on three texts. *)
Definition parse (s : string) : option json :=
  if String.eqb s "null" then Some JNull
  else if String.eqb s "[]" then Some (JArr [])
  else if String.eqb s "{}" then Some (JObj [])
  else None.

(** [JSON.stringify] on integers, [null] and empty lists. *)
Definition stringify (v : jsval) : string :=
  match v with
  | VNumber (Int n) => pretty n
  | VJson JNull => "null"
  | VOrders [] | VPopulatedOrders [] | VProducts [] | VCategories [] | VReviews []
  | VJson (JArr []) => "[]"
  | _ => "{}"
  end.

(** [Number] on the texts of a few numbers; the empty text is [0]. *)
Definition parse_number (s : string) : option number :=
  if String.eqb s "" then Some (Int 0)
  else if String.eqb s "0" then Some (Int 0)
  else if String.eqb s "1" then Some (Int 1)
  else if String.eqb s "2" then Some (Int 2)
  else if String.eqb s "3" then Some (Int 3)
  else if String.eqb s "1.5" then Some (Float "1.5")
  else if String.eqb s "1e21" then Some (Float "1e+21")
  else None.

(** [String(v)] on the values that are not strings. *)
Definition string_of (v : json) : string :=
  match v with
  | JNull => "null"
  | JBool true => "true"
  | JBool false => "false"
  | JNum n => number_text n
  | JStr s => s
  | JArr _ => ""
  | JObj _ => "[object Object]"
  end.

(** [toLowerCase] on the letters of the alphabet. *)
Definition lower_char (c : ascii) : ascii :=
  let n := N_of_ascii c in
  if (65 <=? n)%N && (n <=? 90)%N then ascii_of_N (n + 32) else c.

Fixpoint lower (s : string) : string :=
  match s with
  | EmptyString => EmptyString
  | String c s' => String (lower_char c) (lower s')
  end.

(** Schemas that take a string or a number for a string, and a number or a
    text that [Number] converts for a number. *)
Definition to_string (v : json) : option string :=
  match v with
  | JStr s => Some s
  | JNum n => Some (number_text n)
  | _ => None
  end.

Definition to_number (v : json) : option number :=
  match v with
  | JNum n => Some n
  | JStr s => parse_number s
  | _ => None
  end.

(** An item of an order: a product id and a quantity. *)
Definition to_item (v : json) : option OrderItem :=
  match v with
  | JObj [("productId", JStr p); ("quantity", JNum (Int n))] => Some (mkOrderItem p n)
  | _ => None
  end.

(** A charge that may be absent. *)
Definition to_charge (v : option json) : option (option number) :=
  match v with
  | None => Some None
  | Some (JNum n) => Some (Some n)
  | Some _ => None
  end.

(** A schema of the orders: an array of items, a string for the user,
    numbers for the amounts, the status [Processing] to begin with. *)
Definition create_order (body : NewOrderRequestBody) : option Order :=
  match b_shippingInfo body, b_orderItems body, b_user body, b_subtotal body,
        b_tax body, b_total body with
  | Some si, Some (JArr items), Some (JStr u), Some (JNum sub), Some (JNum tx),
    Some (JNum tot) =>
    match mapM to_item items, to_charge (b_shippingCharges body),
          to_charge (b_discount body) with
    | Some items, Some charges, Some disc =>
      Some (mkOrder "" si items u sub tx charges disc tot "Processing")
    | _, _, _ => None
    end
  | _, _, _, _, _, _ => None
  end.

(** Skip and limit without sorting; a negative skip is rejected, and so are
    numbers that are not integers. *)
Definition page (order : option bool) (limit skip : number) (l : list Product)
    : option (list Product) :=
  match limit, skip with
  | Int limit, Int skip =>
    if Z.ltb skip 0 then None else Some (take (Z.to_nat limit) (drop (Z.to_nat skip) l))
  | _, _ => None
  end.

#[export] Instance collaborators : Collaborators := {
  redisTTL := 14400;
  JSON_parse := parse;
  JSON_stringify := stringify;
  Number := parse_number;
  String_of := string_of;
  toLowerCase := lower;
  float_pred_times := fun _ _ => Float "NaN";
  float_ceil_div := fun _ _ => Float "NaN";
  PRODUCT_PER_PAGE := None;
  invalidateCache := fun _ c => c;
  uploadToCloudinary := fun files => (fun f => mkPhoto f f) <$> files;
  reduceStock := fun _ ps => (ps, true);
  cast_String := to_string;
  cast_Number := to_number;
  Order_create := create_order;
  sort_createdAt_desc := fun l => l;
  sort_updatedAt_desc := fun l => l;
  distinct := fun l => l;
  regex_i := fun re s => String.eqb re s;
  float_lte := fun _ _ => false;
  sort_limit_skip := page
}.

(** Nothing stored, nothing cached. *)
Definition empty_world : World := mkWorld ∅ [] [] [] [] [].

(** A shop with one product, one order in [Processing], an administrator
    and a customer, no review and an empty cache; and three reviews. *)
Definition mug : Product :=
  mkProduct "p1" "Mug" (Int 5) (Int 10) "kitchen" "A mug" [] 0%Q 0.
Definition ann : User := mkUser "u1" "Ann" "ann.png" "user".
Definition root : User := mkUser "u0" "Root" "root.png" "admin".
Definition parcel : Order :=
  mkOrder "o1" (JObj []) [mkOrderItem "p1" 1] "u1" (Int 5) (Int 1) None None (Int 6)
    "Processing".

(** The body of an order of two mugs by the customer, and the body of a
    multipart form for a cup. *)
Definition two_mugs : NewOrderRequestBody :=
  mkNewOrderRequestBody (Some (JObj []))
    (Some (JArr [JObj [("productId", JStr "p1"); ("quantity", JNum (Int 2))]]))
    (Some (JStr "u1")) (Some (JNum (Int 10))) (Some (JNum (Int 1))) None None
    (Some (JNum (Int 11))).

Definition cup : NewProductRequestBody :=
  mkNewProductRequestBody (Some (JStr "Cup")) (Some (JStr "3")) (Some (JStr "2"))
    (Some (JStr "Kitchen")) (Some (JStr "A cup")).

Definition opinions : list Review :=
  [mkReview "fine" 3 "u1" "p1"; mkReview "great" 5 "u0" "p1";
   mkReview "other" 1 "u1" "p2"].

Definition shop : World := mkWorld ∅ [mug] [parcel] [] [root; ann] [].

End Sample.

(** ** Collaborators that evict, and a store that is out of stock *)

Module Evicting.

(** Modelled from the spec: the keys [invalidateCache] of [utils/features.js]
    deletes for a tag set, after section 4.3: for the products the three
    lists and the key of each product given, for the orders the list, the
    list of the user and the key of the order when given, for the reviews
    the list of reviews of each product given.  The keys of the dashboard of
    the administrator are not named there. *)
Definition stale_keys (tags : InvalidateCacheProps) : list string :=
  ((if ic_product tags
    then ["latest-products"; "all-products"; "categories"]
         ++ ((fun id => ("product-" ++ id)%string) <$> ic_productId tags)
    else [])
   ++ (if ic_order tags
       then ["all-orders"]
            ++ match ic_userId tags with Some u => [("my-orders-" ++ u)%string] | None => [] end
            ++ match ic_orderId tags with Some o => [("order-" ++ o)%string] | None => [] end
       else [])
   ++ (if ic_review tags
       then (fun id => ("reviews-" ++ id)%string) <$> ic_productId tags
       else []))%list.

Definition evict (tags : InvalidateCacheProps) (c : gmap string CacheEntry)
    : gmap string CacheEntry :=
  foldr delete c (stale_keys tags).

#[export] Instance collaborators : Collaborators := {
  redisTTL := 14400;
  JSON_parse := Sample.parse;
  JSON_stringify := Sample.stringify;
  Number := Sample.parse_number;
  String_of := Sample.string_of;
  toLowerCase := Sample.lower;
  float_pred_times := fun _ _ => Float "NaN";
  float_ceil_div := fun _ _ => Float "NaN";
  PRODUCT_PER_PAGE := None;
  invalidateCache := evict;
  uploadToCloudinary := fun files => (fun f => mkPhoto f f) <$> files;
  reduceStock := fun _ ps => (ps, true);
  cast_String := Sample.to_string;
  cast_Number := Sample.to_number;
  Order_create := Sample.create_order;
  sort_createdAt_desc := fun l => l;
  sort_updatedAt_desc := fun l => l;
  distinct := fun l => l;
  regex_i := fun re s => String.eqb re s;
  float_lte := fun _ _ => false;
  sort_limit_skip := Sample.page
}.

(** The shop of the samples with stale texts in the cache. *)
Definition stale_shop : World :=
  mkWorld
    (redis_setex (redis_setex (redis_setex ∅ "product-p1" 14400 "{}") "order-o1" 14400 "{}")
       "all-products" 14400 "[]")
    [Sample.mug] [Sample.parcel] [] [Sample.root; Sample.ann] [].

End Evicting.

Module Shortage.

(** The sample collaborators with a [reduceStock] that empties the stock of
    every product and then throws. *)
Definition collaborators : Collaborators := {|
  redisTTL := 14400;
  JSON_parse := Sample.parse;
  JSON_stringify := Sample.stringify;
  Number := Sample.parse_number;
  String_of := Sample.string_of;
  toLowerCase := Sample.lower;
  float_pred_times := fun _ _ => Float "NaN";
  float_ceil_div := fun _ _ => Float "NaN";
  PRODUCT_PER_PAGE := None;
  invalidateCache := fun _ c => c;
  uploadToCloudinary := fun files => (fun f => mkPhoto f f) <$> files;
  reduceStock := fun _ ps => ((fun p => set_stock p (Int 0)) <$> ps, false);
  cast_String := Sample.to_string;
  cast_Number := Sample.to_number;
  Order_create := Sample.create_order;
  sort_createdAt_desc := fun l => l;
  sort_updatedAt_desc := fun l => l;
  distinct := fun l => l;
  regex_i := fun re s => String.eqb re s;
  float_lte := fun _ _ => false;
  sort_limit_skip := Sample.page
|}.

End Shortage.

(** * Properties *)

(** ** Lists of documents *)

Lemma find_update_first {A : Type} (is_doc : A -> bool) (doc x : A) (l : list A) :
  List.find is_doc l = Some x -> is_doc doc = true ->
  List.find is_doc (update_first is_doc doc l) = Some doc.
Proof.
  intros Hfind Hdoc. induction l as [|y l IH]; simpl in *; [discriminate|].
  destruct (is_doc y) eqn:Hy; simpl.
  - now rewrite Hdoc.
  - rewrite Hy. now apply IH.
Qed.

Lemma update_first_length {A : Type} (is_doc : A -> bool) (doc : A) (l : list A) :
  length (update_first is_doc doc l) = length l.
Proof.
  induction l as [|y l IH]; simpl; [reflexivity|].
  destruct (is_doc y); simpl; congruence.
Qed.

(** ** Truthiness *)

Lemma truthy_str_Some (s : string) : truthy_str (Some s) = true <-> s <> "".
Proof.
  unfold truthy_str. destruct (String.eqb_spec s ""); simpl; split; congruence.
Qed.

Lemma falsy_missing (v : option json) : truthy v = false <-> missing v.
Proof.
  unfold missing.
  destruct v as [[|[|]|[z|t]|s|l|m]|]; simpl;
    try (destruct (Z.eqb_spec z 0) as [->|Hz]; simpl);
    try (destruct (String.eqb_spec s "") as [->|Hs]; simpl);
    (split; [intros Ht; try discriminate Ht; auto 6
            |intros Hm; try reflexivity; intuition congruence]).
Qed.

Lemma truthy_text (s : string) : truthy (Some (JStr s)) = true <-> s <> "".
Proof.
  simpl. destruct (String.eqb_spec s ""); simpl; split; congruence.
Qed.

(** ** Order status *)

Lemma next_status_rank (s : string) :
  (status_rank s <= status_rank (next_status s))%nat.
Proof.
  unfold next_status, status_rank.
  destruct (String.eqb_spec s "Processing"); [simpl; lia|].
  destruct (String.eqb_spec s "Shipped"); simpl; lia.
Qed.

Lemma iter_next_status_from_processing (n : nat) :
  Nat.iter (2 + n) next_status "Processing" = "Delivered".
Proof.
  induction n as [|n IH]; [reflexivity|].
  replace (2 + S n)%nat with (S (2 + n)) by lia.
  cbn [Nat.iter nat_rect]. change (nat_rect _ _ _ (2 + n)%nat) with
    (Nat.iter (2 + n) next_status "Processing").
  now rewrite IH.
Qed.

Section OrderStatus.
Context `{Collaborators}.

(** [processOrder] on a stored order rewrites it with the next status and
    leaves it findable under its id. *)
Lemma processOrder_advances (id : string) (w : World) (o : Order) :
  id <> "" -> Order_findById (orders w) id = Some o ->
  fst (processOrder id w) = Json 200 true (msg "Order processed successfully")
  /\ Order_findById (orders (snd (processOrder id w))) id
     = Some (set_status o (next_status (status o))).
Proof.
  intros Hid Hfind. unfold processOrder.
  apply truthy_str_Some in Hid. rewrite Hid, Hfind. simpl.
  split; [reflexivity|].
  unfold Order_findById, Order_save in *. simpl.
  pose proof (find_some _ _ Hfind) as [_ Heq].
  apply String.eqb_eq in Heq. subst id.
  eapply find_update_first; [exact Hfind|].
  simpl. apply String.eqb_refl.
Qed.

End OrderStatus.

Section OrderStatusRuns.
Context `{Collaborators}.

Lemma processOrder_times_status (n : nat) (id : string) (w : World) (o : Order) :
  id <> "" -> Order_findById (orders w) id = Some o ->
  exists o', Order_findById (orders (processOrder_times n id w)) id = Some o'
             /\ status o' = Nat.iter n next_status (status o).
Proof.
  intros Hid. revert w o. induction n as [|n IH]; intros w o Hfind.
  - exists o. now split.
  - destruct (processOrder_advances id w o Hid Hfind) as [_ Hnext].
    destruct (IH _ _ Hnext) as (o' & Hfind' & Hstatus).
    exists o'. split; [exact Hfind'|].
    rewrite Hstatus. simpl status.
    clear. induction n as [|n IHn]; [reflexivity|].
    simpl in *. now rewrite IHn.
Qed.

(** C2.  The status [processOrder] assigns is [Shipped] after [Processing]
    and [Delivered] after every other status, [Shipped] and [Delivered]
    included.  From [Processing] the status is [Delivered] after two steps,
    not before, and after any number of further steps; no step lowers the
    rank of a status, whatever the status it starts from.  The handler
    itself, called [n] times on a stored order in [Processing], leaves it
    with the status that [n] steps give. *)
Theorem order_status_transition :
  next_status "Processing" = "Shipped"
  /\ next_status "Shipped" = "Delivered"
  /\ next_status "Delivered" = "Delivered"
  /\ (forall s, s <> "Processing" -> next_status s = "Delivered")
  /\ Nat.iter 2 next_status "Processing" = "Delivered"
  /\ (forall n, (n < 2)%nat -> Nat.iter n next_status "Processing" <> "Delivered")
  /\ (forall n, Nat.iter (2 + n) next_status "Processing" = "Delivered")
  /\ (forall s, (status_rank s <= status_rank (next_status s))%nat)
  /\ (forall n id w o,
        id <> "" -> Order_findById (orders w) id = Some o ->
        status o = "Processing" ->
        exists o', Order_findById (orders (processOrder_times n id w)) id = Some o'
                   /\ status o' = Nat.iter n next_status "Processing").
Proof.
  repeat split; try reflexivity.
  - intros s Hs. unfold next_status.
    destruct (String.eqb_spec s "Processing"); [contradiction|].
    now destruct (String.eqb s "Shipped").
  - intros n Hn. destruct n as [|[|n]]; simpl; [discriminate|discriminate|lia].
  - apply iter_next_status_from_processing.
  - apply next_status_rank.
  - intros n id w o Hid Hfind Hstatus. rewrite <- Hstatus.
    now apply processOrder_times_status.
Qed.

End OrderStatusRuns.

(** ** The admin-only middleware *)

Section AdminOnly.
Context `{Collaborators}.

(** C6.  [adminOnly] answers 401 to a request without a user id, 403 when
    the id is that of a user whose role is not [admin], and calls [next()]
    when it is that of a user whose role is [admin].  It changes nothing. *)
Theorem adminOnly_statuses :
  (forall w, adminOnly None w = (error "Please log in first" 401, w))
  /\ (forall id u w,
        id <> "" -> User_findById (users w) (Some id) = Some u ->
        role u <> "admin" ->
        adminOnly (Some id) w = (error "You do not have admin privileges" 403, w))
  /\ (forall id u w,
        id <> "" -> User_findById (users w) (Some id) = Some u ->
        role u = "admin" ->
        adminOnly (Some id) w = (NextOk, w)).
Proof.
  split; [reflexivity|]. split.
  - intros id u w Hid Hfind Hrole. unfold adminOnly.
    apply truthy_str_Some in Hid. rewrite Hid, Hfind. simpl.
    now destruct (String.eqb_spec (role u) "admin").
  - intros id u w Hid Hfind Hrole. unfold adminOnly.
    apply truthy_str_Some in Hid. rewrite Hid, Hfind, Hrole. reflexivity.
Qed.

(** The two other ways to a 401: an empty id, and an id of no user. *)
Lemma adminOnly_unknown_id (id : string) (w : World) :
  User_findById (users w) (Some id) = None ->
  exists m, adminOnly (Some id) w = (error m 401, w).
Proof.
  intros Hfind. unfold adminOnly.
  destruct (truthy_str (Some id)); [rewrite Hfind|]; simpl; eauto.
Qed.

End AdminOnly.

(** ** The rating aggregator *)

Lemma ratings_of_count (l : list Review) (pid : string) :
  snd (findAverageRatings l pid) = Z.of_nat (length (ratings_of pid l)).
Proof.
  unfold findAverageRatings.
  destruct (Z.eqb_spec (Z.of_nat (length (ratings_of pid l))) 0) as [Hz|Hz]; simpl;
    congruence.
Qed.

(** C3.  For every product id, [findAverageRatings] yields the number of
    reviews that reference the product and the arithmetic mean of their
    ratings: the mean times the count is the sum of the ratings.  Without a
    review it yields average [0] and count [0]; the quotient is not taken.
    For ratings [3] and [5] it yields average [4] and count [2]. *)
Theorem findAverageRatings_mean (l : list Review) (pid : string) :
  snd (findAverageRatings l pid) = Z.of_nat (length (ratings_of pid l))
  /\ (ratings_of pid l = [] -> findAverageRatings l pid = (0%Q, 0))
  /\ (ratings_of pid l <> [] ->
      (fst (findAverageRatings l pid) * inject_Z (Z.of_nat (length (ratings_of pid l)))
       == inject_Z (sum_ratings (ratings_of pid l)))%Q)
  /\ (ratings_of pid l = [3; 5] ->
      (fst (findAverageRatings l pid) == 4)%Q /\ snd (findAverageRatings l pid) = 2).
Proof.
  split; [apply ratings_of_count|]. split; [|split].
  - intros Hnil. unfold findAverageRatings. now rewrite Hnil.
  - intros Hne. unfold findAverageRatings.
    destruct (Z.eqb_spec (Z.of_nat (length (ratings_of pid l))) 0) as [Hz|Hz].
    + destruct (ratings_of pid l); [contradiction|simpl in Hz; lia].
    + simpl fst. field. intros Hq.
      apply Hz. now apply (inject_Z_injective _ 0).
  - intros Hr. unfold findAverageRatings. rewrite Hr. simpl. split; reflexivity.
Qed.

(** ** Validation of a new order *)

Lemma newOrder_rejects_iff (body : NewOrderRequestBody) :
  newOrder_rejects body = true <->
  missing (b_shippingInfo body) \/ missing (b_orderItems body) \/ missing (b_user body)
  \/ missing (b_subtotal body) \/ missing (b_tax body) \/ missing (b_total body).
Proof.
  unfold newOrder_rejects.
  rewrite !orb_true_iff, !negb_true_iff, !falsy_missing.
  tauto.
Qed.

Lemma newOrder_passes_iff (body : NewOrderRequestBody) :
  newOrder_rejects body = false <->
  truthy (b_shippingInfo body) = true /\ truthy (b_orderItems body) = true
  /\ truthy (b_user body) = true /\ truthy (b_subtotal body) = true
  /\ truthy (b_tax body) = true /\ truthy (b_total body) = true.
Proof.
  unfold newOrder_rejects.
  destruct (truthy (b_shippingInfo body)), (truthy (b_orderItems body)),
    (truthy (b_user body)), (truthy (b_subtotal body)), (truthy (b_tax body)),
    (truthy (b_total body)); simpl; intuition congruence.
Qed.

Section NewOrder.
Context `{Collaborators}.

(** A body that passes the test and that the store makes an order of: the
    order is stored, whatever happens to the stock afterwards; the products
    are as [reduceStock] leaves them, and the cache is invalidated when it
    returns. *)
Lemma newOrder_accepted (body : NewOrderRequestBody) (new_id : string) (w : World)
    (created : Order) :
  newOrder_rejects body = false -> Order_create body = Some created ->
  let reduced := reduceStock (b_orderItems body) (products w) in
  newOrder body new_id w
  = (if snd reduced then Json 201 true (msg "Order placed successfully") else Throws,
     mkWorld
       (if snd reduced
        then invalidateCache
               (mkInvalidateCacheProps true true true false (text_of <$> b_user body)
                  None (productId <$> orderItems created))
               (redis w)
        else redis w)
       (fst reduced) (orders w ++ [set_o_id created new_id]) (reviews w) (users w)
       (cloudinary_deleted w)).
Proof.
  intros Hpass Hcreated reduced. unfold newOrder. rewrite Hpass, Hcreated.
  cbn. fold reduced. now destruct (snd reduced).
Qed.

Lemma newOrder_refused (body : NewOrderRequestBody) (new_id : string) (w : World) :
  newOrder_rejects body = false -> Order_create body = None ->
  newOrder body new_id w = (Throws, w).
Proof. intros Hpass Hnone. unfold newOrder. now rewrite Hpass, Hnone. Qed.

(** What [newOrder] does to the orders: nothing, or one order more under
    the new id. *)
Lemma newOrder_orders (body : NewOrderRequestBody) (new_id : string) (w : World) :
  orders (snd (newOrder body new_id w)) = orders w
  \/ exists created,
       orders (snd (newOrder body new_id w)) = (orders w ++ [set_o_id created new_id])%list.
Proof.
  destruct (newOrder_rejects body) eqn:Hrej.
  - left. unfold newOrder. now rewrite Hrej.
  - destruct (Order_create body) as [created|] eqn:Hcreated.
    + right. exists created. now rewrite (newOrder_accepted _ _ _ _ Hrej Hcreated).
    + left. now rewrite (newOrder_refused _ _ _ Hrej Hcreated).
Qed.

(** C8.  [newOrder] rejects with a 400 error, and changes nothing, every body
    in which [shippingInfo], [orderItems], [user], [subtotal], [tax] or
    [total] is absent or falsy, that is [null], [false], [0] or the empty
    string; so it rejects a body with all fields present whose [subtotal],
    [tax] or [total] is [0].  The test does not read [shippingCharges] and
    [discount]: a body whose six other fields are truthy passes it whatever
    these two are, absent included, and never gets a 400 error: the order
    is created when the store accepts it, and the handler throws when it
    does not. *)
Theorem newOrder_required_fields :
  (forall body new_id w,
      missing (b_shippingInfo body) \/ missing (b_orderItems body)
      \/ missing (b_user body) \/ missing (b_subtotal body)
      \/ missing (b_tax body) \/ missing (b_total body) ->
      newOrder body new_id w = (error "Please enter all required fields" 400, w))
  /\ (forall si items u sub tx charges disc tot new_id w,
        sub = JNum (Int 0) \/ tx = JNum (Int 0) \/ tot = JNum (Int 0) ->
        newOrder
          (mkNewOrderRequestBody (Some si) (Some items) (Some u) (Some sub) (Some tx)
             (Some charges) (Some disc) (Some tot)) new_id w
        = (error "Please enter all required fields" 400, w))
  /\ (forall body charges disc,
        newOrder_rejects (with_charges body charges disc) = newOrder_rejects body)
  /\ (forall body new_id w,
        truthy (b_shippingInfo body) = true -> truthy (b_orderItems body) = true ->
        truthy (b_user body) = true -> truthy (b_subtotal body) = true ->
        truthy (b_tax body) = true -> truthy (b_total body) = true ->
        (forall m, fst (newOrder body new_id w) <> error m 400)
        /\ (Order_create body = None -> newOrder body new_id w = (Throws, w))
        /\ (forall created,
              Order_create body = Some created ->
              orders (snd (newOrder body new_id w))
              = (orders w ++ [set_o_id created new_id])%list
              /\ (snd (reduceStock (b_orderItems body) (products w)) = true ->
                  fst (newOrder body new_id w)
                  = Json 201 true (msg "Order placed successfully")))).
Proof.
  split; [|split; [|split]].
  - intros body new_id w Hmiss. apply newOrder_rejects_iff in Hmiss.
    unfold newOrder. now rewrite Hmiss.
  - intros si items u sub tx charges disc tot new_id w Hzero.
    unfold newOrder.
    replace (newOrder_rejects _) with true; [reflexivity|].
    symmetry. apply newOrder_rejects_iff. simpl. unfold missing.
    destruct Hzero as [-> | [-> | ->]]; auto 12.
  - reflexivity.
  - intros body new_id w Hsi Hitems Hu Hsub Htx Htot.
    assert (Hpass : newOrder_rejects body = false)
      by (apply newOrder_passes_iff; auto 6).
    destruct (Order_create body) as [created|] eqn:Hcreated.
    + rewrite (newOrder_accepted _ new_id w _ Hpass Hcreated). cbn [fst snd orders].
      split; [|split].
      * intros m. now destruct (snd (reduceStock _ _)).
      * discriminate.
      * intros created' [= <-]. split; [reflexivity|]. now intros ->.
    + rewrite (newOrder_refused _ new_id w Hpass Hcreated).
      split; [discriminate|]. split; [reflexivity|discriminate].
Qed.

End NewOrder.

(** ** Updating a product *)

Lemma find_update_first_other {A : Type} (is_doc other : A -> bool) (doc : A)
    (l : list A) :
  other doc = false -> (forall x, is_doc x = true -> other x = false) ->
  List.find other (update_first is_doc doc l) = List.find other l.
Proof.
  intros Hdoc Hdisjoint. induction l as [|y l IH]; simpl; [reflexivity|].
  destruct (is_doc y) eqn:Hy; simpl.
  - now rewrite Hdoc, (Hdisjoint y Hy).
  - now rewrite IH.
Qed.

Lemma Product_findById_id (l : list Product) (id : string) (p : Product) :
  Product_findById l id = Some p -> p_id p = id.
Proof.
  intros Hfind. apply find_some in Hfind as [_ Heq]. now apply String.eqb_eq in Heq.
Qed.

Lemma Product_save_found (l : list Product) (p p' : Product) :
  Product_findById l (p_id p) = Some p -> p_id p' = p_id p ->
  Product_findById (Product_save p' l) (p_id p) = Some p'.
Proof.
  intros Hfind Hid. unfold Product_findById, Product_save in *. rewrite Hid.
  eapply find_update_first; [exact Hfind|]. rewrite Hid. apply String.eqb_refl.
Qed.

Lemma Product_save_other (l : list Product) (p' : Product) (id : string) :
  id <> p_id p' ->
  Product_findById (Product_save p' l) id = Product_findById l id.
Proof.
  intros Hne. unfold Product_findById, Product_save.
  apply find_update_first_other.
  - apply String.eqb_neq. congruence.
  - intros x Hx. apply String.eqb_eq in Hx. apply String.eqb_neq. congruence.
Qed.

Lemma assigned_None {A : Type} (v : option json) (cast : json -> option A) (old : A) :
  assigned v cast old = None <-> refused v cast.
Proof.
  unfold assigned, refused. destruct (truthy v); simpl.
  - split; [now split|now intros [_ Hnone]].
  - split; [discriminate|now intros [Ht _]].
Qed.

Lemma assigned_Some {A : Type} (v : option json) (cast : json -> option A) (old a : A) :
  assigned v cast old = Some a ->
  (truthy v = true -> Some a = v ≫= cast) /\ (truthy v = false -> a = old).
Proof.
  unfold assigned. destruct (truthy v); intros Ha.
  - split; [now intros _|discriminate].
  - split; [discriminate|]. intros _. congruence.
Qed.

Section UpdateProduct.
Context `{Collaborators}.

(** [updateProduct] on a stored product: the images it had are handed to
    the image host for deletion when files come with the request; then the
    product is saved and the cache invalidated, or the handler throws
    because the schema refuses a value. *)
Lemma updateProduct_found (id : string) (body : UpdateProductBody)
    (files : option (list string)) (w : World) (p : Product) :
  Product_findById (products w) id = Some p ->
  updateProduct id body files w
  = match updated_product body files p with
    | Some p' =>
      (Json 200 true (msg "Product Updated Successfully"),
       mkWorld
         (invalidateCache (mkInvalidateCacheProps true false true false None None [p_id p])
            (redis w))
         (Product_save p' (products w)) (orders w) (reviews w) (users w)
         (cloudinary_deleted w
          ++ (if has_photos files then public_id <$> photos p else [])))
    | None =>
      (Throws,
       mkWorld (redis w) (products w) (orders w) (reviews w) (users w)
         (cloudinary_deleted w
          ++ (if has_photos files then public_id <$> photos p else [])))
    end.
Proof.
  intros Hfind. unfold updateProduct, updated_product, assign, assigned. rewrite Hfind.
  destruct w as [c ps os rs us dl], p as [pid pn pp ps' pc pd pph pr pnr].
  cbn [products redis orders reviews users cloudinary_deleted p_id name price stock
       category description photos ratings numOfReviews].
  destruct (ub_name body ≫= cast_String), (ub_price body ≫= cast_Number),
    (ub_stock body ≫= cast_Number), (ub_category body ≫= cast_String),
    (ub_description body ≫= cast_String);
    destruct (truthy (ub_name body)), (truthy (ub_price body)), (truthy (ub_stock body)),
      (truthy (ub_category body)), (truthy (ub_description body));
    destruct (has_photos files); cbn; rewrite ?app_nil_r; reflexivity.
Qed.

Lemma updated_product_None (body : UpdateProductBody) (files : option (list string))
    (p : Product) :
  updated_product body files p = None <->
  refused (ub_name body) cast_String \/ refused (ub_price body) cast_Number
  \/ refused (ub_stock body) cast_Number \/ refused (ub_category body) cast_String
  \/ refused (ub_description body) cast_String.
Proof.
  rewrite <- (assigned_None (ub_name body) cast_String (name p)),
    <- (assigned_None (ub_price body) cast_Number (price p)),
    <- (assigned_None (ub_stock body) cast_Number (stock p)),
    <- (assigned_None (ub_category body) cast_String (category p)),
    <- (assigned_None (ub_description body) cast_String (description p)).
  unfold updated_product.
  destruct (assigned (ub_name body) _ _), (assigned (ub_price body) _ _),
    (assigned (ub_stock body) _ _), (assigned (ub_category body) _ _),
    (assigned (ub_description body) _ _); intuition congruence.
Qed.

Lemma updated_product_Some (body : UpdateProductBody) (files : option (list string))
    (p p' : Product) :
  updated_product body files p = Some p' ->
  p_id p' = p_id p /\ ratings p' = ratings p /\ numOfReviews p' = numOfReviews p
  /\ photos p'
     = (if has_photos files then uploadToCloudinary (default [] files) else photos p)
  /\ assigned (ub_name body) cast_String (name p) = Some (name p')
  /\ assigned (ub_price body) cast_Number (price p) = Some (price p')
  /\ assigned (ub_stock body) cast_Number (stock p) = Some (stock p')
  /\ assigned (ub_category body) cast_String (category p) = Some (category p')
  /\ assigned (ub_description body) cast_String (description p)
     = Some (description p').
Proof.
  unfold updated_product.
  destruct (assigned (ub_name body) _ _), (assigned (ub_price body) _ _),
    (assigned (ub_stock body) _ _), (assigned (ub_category body) _ _),
    (assigned (ub_description body) _ _); try discriminate.
  intros [= <-]. now repeat split.
Qed.

End UpdateProduct.

Section UpdateProductFrame.
Context `{Collaborators}.

(** C9, as the code has it.  [updateProduct] on a stored product saves it
    with exactly those of [name], [price], [stock], [category] and
    [description] replaced whose value in the body is truthy, by what the
    schema makes of the value; a falsy value, the number [0] for [price] or
    [stock] included, leaves the stored one.  The text [0], which is what a
    multipart form carries for a price or a stock of zero, is truthy: it
    replaces the stored value.  The photos are replaced when at least one
    file comes with the request and kept otherwise.  The id, the ratings
    and the number of reviews stay, and so do the other products, the
    orders, the reviews and the users.  When the schema refuses a truthy
    value, and only then, the handler throws and no product changes. *)
Theorem updateProduct_changes_truthy_fields (id : string) (body : UpdateProductBody)
    (files : option (list string)) (w : World) (p : Product) :
  Product_findById (products w) id = Some p ->
  let run := updateProduct id body files w in
  let w' := snd run in
  (fst run = Throws <->
   refused (ub_name body) cast_String \/ refused (ub_price body) cast_Number
   \/ refused (ub_stock body) cast_Number \/ refused (ub_category body) cast_String
   \/ refused (ub_description body) cast_String)
  /\ (fst run = Throws -> products w' = products w)
  /\ (fst run <> Throws ->
      fst run = Json 200 true (msg "Product Updated Successfully")
      /\ exists p',
          Product_findById (products w') id = Some p'
          /\ (truthy (ub_name body) = true -> Some (name p') = ub_name body ≫= cast_String)
          /\ (truthy (ub_name body) = false -> name p' = name p)
          /\ (truthy (ub_price body) = true ->
              Some (price p') = ub_price body ≫= cast_Number)
          /\ (truthy (ub_price body) = false -> price p' = price p)
          /\ (truthy (ub_stock body) = true ->
              Some (stock p') = ub_stock body ≫= cast_Number)
          /\ (truthy (ub_stock body) = false -> stock p' = stock p)
          /\ (truthy (ub_category body) = true ->
              Some (category p') = ub_category body ≫= cast_String)
          /\ (truthy (ub_category body) = false -> category p' = category p)
          /\ (truthy (ub_description body) = true ->
              Some (description p') = ub_description body ≫= cast_String)
          /\ (truthy (ub_description body) = false -> description p' = description p)
          /\ (ub_price body = Some (JNum (Int 0)) -> price p' = price p)
          /\ (ub_stock body = Some (JNum (Int 0)) -> stock p' = stock p)
          /\ (ub_price body = Some (JStr "0") -> Some (price p') = cast_Number (JStr "0"))
          /\ (ub_stock body = Some (JStr "0") -> Some (stock p') = cast_Number (JStr "0"))
          /\ (files = None \/ files = Some [] -> photos p' = photos p)
          /\ (forall f l, files = Some (f :: l) -> photos p' = uploadToCloudinary (f :: l))
          /\ p_id p' = p_id p /\ ratings p' = ratings p
          /\ numOfReviews p' = numOfReviews p)
  /\ (forall id', id' <> id ->
      Product_findById (products w') id' = Product_findById (products w) id')
  /\ orders w' = orders w /\ reviews w' = reviews w /\ users w' = users w.
Proof.
  intros Hfind run w'. subst w' run.
  pose proof (Product_findById_id _ _ _ Hfind) as Hid.
  rewrite (updateProduct_found id body files w p Hfind).
  pose proof (updated_product_None body files p) as Hnone.
  destruct (updated_product body files p) as [p'|] eqn:Hsaved; cbn [fst snd].
  - destruct (updated_product_Some body files p p' Hsaved)
      as (Hpid & Hratings & Hnum & Hphotos & Hn & Hpr & Hst & Hc & Hd).
    apply assigned_Some in Hn as [Hn1 Hn0], Hpr as [Hpr1 Hpr0], Hst as [Hst1 Hst0],
      Hc as [Hc1 Hc0], Hd as [Hd1 Hd0].
    split; [|split; [|split; [|split]]].
    + split; [discriminate|]. intros Href. apply Hnone in Href. discriminate.
    + discriminate.
    + intros _. split; [reflexivity|]. exists p'. cbn [products].
      split.
      { rewrite <- Hid. apply Product_save_found; [now rewrite Hid|exact Hpid]. }
      repeat split; auto.
      * intros Hz. apply Hpr0. now rewrite Hz.
      * intros Hz. apply Hst0. now rewrite Hz.
      * intros Hz. rewrite (Hpr1 ltac:(now rewrite Hz)), Hz. reflexivity.
      * intros Hz. rewrite (Hst1 ltac:(now rewrite Hz)), Hz. reflexivity.
      * intros [-> | ->]; exact Hphotos.
      * intros f l ->. exact Hphotos.
    + intros id' Hne. cbn [products]. apply Product_save_other. congruence.
    + now repeat split.
  - split; [|split; [|split; [|split]]].
    + split; [intros _; now apply Hnone|reflexivity].
    + reflexivity.
    + intros Hne. now contradiction Hne.
    + reflexivity.
    + now repeat split.
Qed.

End UpdateProductFrame.

(** ** One review per user and product *)

Lemma review_of_true (u p : string) (r : Review) :
  review_of u p r = true <-> r_user r = u /\ r_product r = p.
Proof.
  unfold review_of. rewrite andb_true_iff, !String.eqb_eq. reflexivity.
Qed.

Lemma Review_findOne_pair (l : list Review) (u p : string) (r : Review) :
  Review_findOne l u p = Some r -> r_user r = u /\ r_product r = p.
Proof.
  intros Hfind. apply find_some in Hfind as [_ Hr].
  apply review_of_true. exact Hr.
Qed.

Lemma find_none_filter {A : Type} (f : A -> bool) (l : list A) :
  List.find f l = None -> List.filter f l = [].
Proof.
  induction l as [|x l IH]; simpl; [reflexivity|].
  destruct (f x); [discriminate|exact IH].
Qed.

Lemma find_app_none {A : Type} (f : A -> bool) (l l' : list A) :
  List.find f l = None -> List.find f (l ++ l') = List.find f l'.
Proof.
  induction l as [|x l IH]; simpl; [reflexivity|].
  destruct (f x); [discriminate|exact IH].
Qed.

(** Rewriting the first match with a document that the other filter cannot
    tell from it keeps the number of documents the filter selects. *)
Lemma filter_update_first_length {A : Type} (is_doc other : A -> bool) (doc : A)
    (l : list A) :
  (forall x, is_doc x = true -> other x = other doc) ->
  length (List.filter other (update_first is_doc doc l)) = length (List.filter other l).
Proof.
  intros Hsame. induction l as [|y l IH]; simpl; [reflexivity|].
  destruct (is_doc y) eqn:Hy; simpl.
  - rewrite (Hsame y Hy). now destruct (other doc).
  - destruct (other y); simpl; congruence.
Qed.

Lemma save_or_create_review_invariant (l : list Review) (u p : string)
    (body : ReviewBody) :
  one_review_per_pair l ->
  one_review_per_pair (save_or_create_review (Review_findOne l u p) u p body l).
Proof.
  intros Hinv u' p'. unfold save_or_create_review.
  destruct (Review_findOne l u p) as [r|] eqn:Hfind.
  - destruct (Review_findOne_pair _ _ _ _ Hfind) as [Hu Hp].
    rewrite filter_update_first_length; [apply Hinv|].
    intros x Hx. apply review_of_true in Hx as [Hxu Hxp].
    unfold review_of. simpl. congruence.
  - rewrite List.filter_app, length_app. simpl.
    destruct (review_of u' p' _) eqn:Hnew; simpl.
    + apply review_of_true in Hnew as [Hu Hp]. simpl in Hu, Hp. subst u' p'.
      unfold Review_findOne in Hfind.
      rewrite (find_none_filter _ _ Hfind). simpl. lia.
    + specialize (Hinv u' p'). lia.
Qed.

Lemma ratings_of_app (pid : string) (l1 l2 : list Review) :
  ratings_of pid (l1 ++ l2) = (ratings_of pid l1 ++ ratings_of pid l2)%list.
Proof. unfold ratings_of. now rewrite List.filter_app, fmap_app. Qed.

Lemma ratings_of_nil_no_review (pid u : string) (l : list Review) :
  ratings_of pid l = [] -> Review_findOne l u pid = None.
Proof.
  unfold ratings_of, Review_findOne. induction l as [|r l IH]; simpl; [reflexivity|].
  unfold review_of at 1.
  destruct (String.eqb (r_product r) pid); simpl; [discriminate|].
  rewrite andb_false_r. exact IH.
Qed.

Section NewReview.
Context `{Collaborators}.

Lemma newReview_found (query_id : option string) (id : string) (body : ReviewBody)
    (w : World) (u : User) (product : Product) :
  User_findById (users w) query_id = Some u ->
  Product_findById (products w) id = Some product ->
  let found := Review_findOne (reviews w) (u_id u) (p_id product) in
  let rs := save_or_create_review found (u_id u) (p_id product) body (reviews w) in
  let avg := findAverageRatings rs (p_id product) in
  newReview query_id id body w
  = (Json (if truthy_obj found then 200 else 201) true
       (msg (if truthy_obj found then "Review Updated" else "Review Added")),
     mkWorld
       (invalidateCache
          (mkInvalidateCacheProps true false true true None None [p_id product])
          (redis w))
       (Product_save (set_ratings product (fst avg) (snd avg)) (products w))
       (orders w) rs (users w) (cloudinary_deleted w)).
Proof.
  intros Hu Hp found rs avg. unfold newReview. rewrite Hu, Hp.
  fold found. cbn [set_reviews reviews]. fold rs. fold avg.
  now destruct avg.
Qed.

Lemma newReview_invariant (query_id : option string) (id : string) (body : ReviewBody)
    (w : World) :
  one_review_per_pair (reviews w) ->
  one_review_per_pair (reviews (snd (newReview query_id id body w))).
Proof.
  intros Hinv.
  destruct (User_findById (users w) query_id) as [u|] eqn:Hu;
    [|unfold newReview; now rewrite Hu].
  destruct (Product_findById (products w) id) as [product|] eqn:Hp;
    [|unfold newReview; now rewrite Hu, Hp].
  rewrite (newReview_found _ _ _ _ _ _ Hu Hp). simpl.
  now apply save_or_create_review_invariant.
Qed.

(** [newReview] saves the product with the ratings and the number of
    reviews that the aggregator yields on the reviews it leaves. *)
Lemma newReview_persists_ratings (query_id : option string) (id : string)
    (body : ReviewBody) (w : World) (u : User) (product : Product) :
  User_findById (users w) query_id = Some u ->
  Product_findById (products w) id = Some product ->
  let w' := snd (newReview query_id id body w) in
  exists p', Product_findById (products w') id = Some p'
             /\ (ratings p', numOfReviews p') = findAverageRatings (reviews w') id.
Proof.
  intros Hu Hp w'. subst w'. rewrite (newReview_found _ _ _ _ _ _ Hu Hp). simpl.
  pose proof (Product_findById_id _ _ _ Hp) as Hid. subst id.
  eexists. split.
  - apply Product_save_found; [exact Hp|reflexivity].
  - simpl. now destruct (findAverageRatings _ _).
Qed.

Lemma newReview_all_invariant (subs : list Submission) (w : World) :
  one_review_per_pair (reviews w) ->
  one_review_per_pair (reviews (newReview_all subs w)).
Proof.
  revert w. induction subs as [|s subs IH]; intros w Hinv; simpl; [exact Hinv|].
  apply IH. now apply newReview_invariant.
Qed.

End NewReview.

Section ReviewUpsert.
Context `{Collaborators}.

(** C4.  For every user and product that the store holds: a submission when
    a review of that user for that product exists rewrites that review with
    the comment and the rating of the body and creates none, so the number
    of reviews, of the product and in all, stays; without such a review one
    is created.  A store with at most one review per user and product stays
    so after any sequence of submissions.  After a second submission of the
    user for a product that had no review, the product has one review, with
    the second rating, and its stored number of reviews is [1]. *)
Theorem newReview_upsert (query_id : option string) (id : string)
    (body : ReviewBody) (w : World) (u : User) (product : Product) :
  User_findById (users w) query_id = Some u ->
  Product_findById (products w) id = Some product ->
  let w' := snd (newReview query_id id body w) in
  (forall r,
      Review_findOne (reviews w) (u_id u) (p_id product) = Some r ->
      fst (newReview query_id id body w) = Json 200 true (msg "Review Updated")
      /\ length (reviews w') = length (reviews w)
      /\ Review_findOne (reviews w') (u_id u) (p_id product)
         = Some (mkReview (rb_comment body) (rb_rating body) (u_id u) (p_id product))
      /\ length (ratings_of (p_id product) (reviews w'))
         = length (ratings_of (p_id product) (reviews w)))
  /\ (Review_findOne (reviews w) (u_id u) (p_id product) = None ->
      fst (newReview query_id id body w) = Json 201 true (msg "Review Added")
      /\ reviews w'
         = (reviews w
            ++ [mkReview (rb_comment body) (rb_rating body) (u_id u) (p_id product)])%list)
  /\ (forall subs,
        one_review_per_pair (reviews w) ->
        one_review_per_pair (reviews (newReview_all subs w)))
  /\ (forall body2,
        ratings_of (p_id product) (reviews w) = [] ->
        let w2 := snd (newReview query_id id body2 w') in
        fst (newReview query_id id body2 w') = Json 200 true (msg "Review Updated")
        /\ ratings_of (p_id product) (reviews w2) = [rb_rating body2]
        /\ exists p2, Product_findById (products w2) id = Some p2
                      /\ numOfReviews p2 = 1).
Proof.
  intros Hu Hp w'.
  pose proof (newReview_found query_id id body w u product Hu Hp) as Hrun.
  cbv zeta in Hrun.
  pose proof (Product_findById_id _ _ _ Hp) as Hid.
  split; [|split; [|split]].
  - intros r Hr. subst w'. rewrite Hrun, Hr. simpl.
    destruct (Review_findOne_pair _ _ _ _ Hr) as [Hru Hrp]. rewrite Hru, Hrp.
    split; [reflexivity|]. split; [apply update_first_length|]. split.
    + unfold Review_findOne in *. eapply find_update_first; [exact Hr|].
      apply review_of_true. now split.
    + unfold ratings_of. rewrite !length_fmap.
      apply filter_update_first_length.
      intros x Hx. apply review_of_true in Hx as [_ Hxp]. simpl. now rewrite Hxp.
  - intros Hnone. subst w'. rewrite Hrun, Hnone. simpl. now split.
  - intros subs. apply newReview_all_invariant.
  - intros body2 Hnil w2.
    pose proof (ratings_of_nil_no_review _ (u_id u) _ Hnil) as Hnone.
    assert (Hw' : w' = snd (newReview query_id id body w)) by reflexivity.
    rewrite Hrun, Hnone in Hw'. simpl in Hw'.
    set (p1 := set_ratings product _ _) in Hw'.
    assert (Hu' : User_findById (users w') query_id = Some u) by now rewrite Hw'.
    assert (Hp' : Product_findById (products w') id = Some p1).
    { rewrite Hw'. simpl. rewrite <- Hid. now apply Product_save_found; rewrite ?Hid. }
    pose proof (newReview_found query_id id body2 w' u p1 Hu' Hp') as Hrun2.
    cbv zeta in Hrun2. change (p_id p1) with (p_id product) in Hrun2.
    assert (Hfound : Review_findOne (reviews w') (u_id u) (p_id product)
                     = Some (mkReview (rb_comment body) (rb_rating body) (u_id u)
                               (p_id product))).
    { rewrite Hw'. simpl. unfold Review_findOne in *.
      rewrite (find_app_none _ _ _ Hnone). simpl.
      unfold review_of. simpl. now rewrite !String.eqb_refl. }
    assert (Hrs : save_or_create_review
                    (Review_findOne (reviews w') (u_id u) (p_id product))
                    (u_id u) (p_id product) body2 (reviews w')
                  = (reviews w
                     ++ [mkReview (rb_comment body2) (rb_rating body2) (u_id u)
                           (p_id product)])%list).
    { rewrite Hfound. simpl. rewrite Hw'. simpl. clear - Hnone.
      unfold Review_findOne in Hnone.
      induction (reviews w) as [|x l IH]; simpl in *.
      - unfold review_of. simpl. now rewrite !String.eqb_refl.
      - destruct (review_of (u_id u) (p_id product) x); [discriminate|].
        now rewrite IH. }
    rewrite Hrs in Hrun2.
    assert (Hratings : ratings_of (p_id product)
                         (reviews w
                          ++ [mkReview (rb_comment body2) (rb_rating body2) (u_id u)
                                (p_id product)])
                       = [rb_rating body2]).
    { rewrite ratings_of_app, Hnil. unfold ratings_of. simpl.
      now rewrite String.eqb_refl. }
    subst w2. rewrite Hrun2, Hfound. simpl.
    split; [reflexivity|]. split; [exact Hratings|].
    eexists. split.
    + rewrite <- Hid in Hp'. rewrite <- Hid.
      change (p_id product) with (p_id p1) in Hp' |- *.
      apply (Product_save_found _ p1); [exact Hp'|reflexivity].
    + simpl. rewrite ratings_of_count, Hratings. reflexivity.
Qed.

End ReviewUpsert.

(** ** Cache keys *)












Section CacheKeys.
Context `{Collaborators}.




End CacheKeys.

(** ** Read endpoints *)

(** The cases of a handler on the text cached under [key]: a text that is
    truthy, one that is not, none.  The case of a hit whose response has one
    field closes here. *)
Ltac by_cached key :=
  destruct (redis_get _ key) as [cached|];
  [destruct (cache_hit (Some cached)); simpl;
   [try (destruct (JSON_parse cached); reflexivity)|]
  |simpl];
  try reflexivity.

Section ReadThrough.
Context `{Collaborators}.

Lemma cache_hit_Some (s : string) : s <> "" -> cache_hit (Some s) = true.
Proof. apply truthy_str_Some. Qed.

Lemma cache_hit_miss (cached : option string) :
  cached = None \/ cached = Some "" -> cache_hit cached = false.
Proof. now intros [-> | ->]. Qed.

(** Every read endpoint that builds a key is the read-through pattern on that
    key. *)
Lemma handle_read_through (r : ReadRequest) (k : CacheQuery) (w : World) :
  view_of r = Some k -> handle r w = read_through r (cache_key k) w.
Proof.
  intros Hview. unfold read_through.
  destruct r as [[u|]| |id| | | |id|q|id]; simpl in Hview.
  - destruct (String.eqb_spec u "") as [Hu|Hu]; simpl in Hview; [discriminate|].
    injection Hview as <-. cbn [handle cache_key]. unfold myOrders.
    apply truthy_str_Some in Hu. rewrite Hu. cbn [negb].
    by_cached ("my-orders-" ++ u).
  - discriminate.
  - injection Hview as <-. cbn [handle cache_key]. unfold allOrders.
    by_cached "all-orders".
  - destruct (String.eqb_spec id "") as [Hid|Hid]; simpl in Hview; [discriminate|].
    injection Hview as <-. cbn [handle cache_key]. unfold getSingleOrder.
    apply truthy_str_Some in Hid. rewrite Hid. cbn [negb].
    by_cached ("order-" ++ id); now destruct (Order_findById (orders w) id).
  - injection Hview as <-. cbn [handle cache_key]. unfold getlatestProducts.
    by_cached "latest-products".
  - injection Hview as <-. cbn [handle cache_key]. unfold getAllCategories.
    by_cached "categories".
  - injection Hview as <-. cbn [handle cache_key]. unfold getAdminProducts.
    by_cached "all-products".
  - injection Hview as <-. cbn [handle cache_key]. unfold getSingleProduct.
    by_cached ("product-" ++ id); now destruct (Product_findById (products w) id).
  - injection Hview as <-. cbn [handle cache_key]. unfold getAllProducts.
    by_cached (products_key q); try now destruct (sort_limit_skip _ _ _ _).
    destruct (JSON_parse _) as [parsed|]; [|reflexivity]. simpl.
    now destruct (member parsed "totalPage"), (member parsed "products").
  - injection Hview as <-. cbn [handle cache_key]. unfold allReviewsOfProduct.
    by_cached ("reviews-" ++ id).
Qed.

End ReadThrough.

Section ReadEndpoints.
Context `{Collaborators}.

Lemma fallback_no_entity (r : ReadRequest) (w : World) (m : string) :
  fallback r w = NoEntity m <->
  (exists id, r = GetSingleProduct id /\ m = "Product Not Found"
              /\ Product_findById (products w) id = None)
  \/ (exists id, r = GetSingleOrder id /\ m = "Order not found"
                 /\ Order_findById (orders w) id = None).
Proof.
  split.
  - destruct r as [qid| |id| | | |id|q|id]; simpl; try discriminate.
    + destruct (Order_findById (orders w) id) eqn:Hfind; [discriminate|].
      intros [= <-]. right. now exists id.
    + destruct (Product_findById (products w) id) eqn:Hfind; [discriminate|].
      intros [= <-]. left. now exists id.
    + now destruct (sort_limit_skip _ _ _ _).
  - intros [(id & -> & -> & Hfind)|(id & -> & -> & Hfind)]; simpl; now rewrite Hfind.
Qed.

Lemma fallback_rejected (r : ReadRequest) (w : World) :
  fallback r w = Rejected -> exists q, r = GetAllProducts q.
Proof.
  destruct r as [qid| |id| | | |id|q|id]; simpl; try discriminate; eauto.
  - now destruct (Order_findById (orders w) id).
  - now destruct (Product_findById (products w) id).
Qed.

(** C1, as the code has it.  For every read endpoint and the key it builds:
    when the cache holds a non-empty text under the key, the endpoint
    answers with that text deserialized (it throws when the text does not
    parse) and changes nothing, whatever the document store holds; otherwise
    it runs its computation on the store and, when that yields a value,
    stores the serialized value under the key, with the configured time to
    live (30 seconds for the product list), and answers with it.  When the
    computation finds no entity, which only [getSingleProduct] and
    [getSingleOrder] can, the endpoint answers 404 and stores nothing. *)
Theorem read_endpoint_hit_or_compute (r : ReadRequest) (k : CacheQuery) (w : World) :
  view_of r = Some k ->
  (forall s,
      redis_get (redis w) (cache_key k) = Some s -> s <> "" ->
      handle r w
      = (match JSON_parse s ≫= hit_fields r with
         | Some fields => Json 200 true fields
         | None => Throws
         end, w)
      /\ (forall w2, redis w2 = redis w -> fst (handle r w2) = fst (handle r w)))
  /\ (redis_get (redis w) (cache_key k) = None
      \/ redis_get (redis w) (cache_key k) = Some "" ->
      handle r w
      = match fallback r w with
        | Computed v fields =>
          (Json 200 true fields,
           set_redis w
             (redis_setex (redis w) (cache_key k) (ttl_of r) (JSON_stringify v)))
        | NoEntity m => (error m 404, w)
        | Rejected => (Throws, w)
        end)
  /\ (forall m,
        fallback r w = NoEntity m <->
        (exists id, r = GetSingleProduct id /\ m = "Product Not Found"
                    /\ Product_findById (products w) id = None)
        \/ (exists id, r = GetSingleOrder id /\ m = "Order not found"
                       /\ Order_findById (orders w) id = None))
  /\ (fallback r w = Rejected -> exists q, r = GetAllProducts q).
Proof.
  intros Hview. split; [|split; [|split]].
  - intros s Hget Hs.
    assert (Hhit : forall w2, redis w2 = redis w ->
              handle r w2
              = (match JSON_parse s ≫= hit_fields r with
                 | Some fields => Json 200 true fields
                 | None => Throws
                 end, w2)).
    { intros w2 Hredis. rewrite (handle_read_through r k w2 Hview).
      unfold read_through. rewrite Hredis, Hget, (cache_hit_Some s Hs). simpl.
      now destruct (JSON_parse s ≫= hit_fields r). }
    split; [now apply Hhit|].
    intros w2 Hredis. now rewrite (Hhit w2 Hredis), (Hhit w eq_refl).
  - intros Hmiss. rewrite (handle_read_through r k w Hview).
    unfold read_through. rewrite (cache_hit_miss _ Hmiss).
    now destruct (fallback r w).
  - apply fallback_no_entity.
  - apply fallback_rejected.
Qed.

End ReadEndpoints.

(** ** Single entities: not found *)

Section SingleEntity.
Context `{Collaborators}.


(** Whatever the cache holds: [getSingleProduct] answers 404 exactly when
    the text it reads from the cache is not truthy and the store has no
    product with the id. *)
Lemma getSingleProduct_404_iff (id : string) (w : World) :
  (exists m, fst (getSingleProduct id w) = error m 404) <->
  cache_hit (redis_get (redis w) ("product-" ++ id)) = false
  /\ Product_findById (products w) id = None.
Proof.
  unfold getSingleProduct.
  destruct (cache_hit _); simpl.
  - split; [|intros [Hc _]; discriminate].
    intros [m Hm]. now destruct (_ ≫= JSON_parse).
  - destruct (Product_findById (products w) id); simpl; split.
    + intros [m Hm]. discriminate.
    + intros [_ Hp]. discriminate.
    + now intros _.
    + intros _. now eexists.
Qed.

Lemma getSingleOrder_404_iff (id : string) (w : World) :
  id <> "" ->
  (exists m, fst (getSingleOrder id w) = error m 404) <->
  cache_hit (redis_get (redis w) ("order-" ++ id)) = false
  /\ Order_findById (orders w) id = None.
Proof.
  intros Hid. unfold getSingleOrder.
  apply truthy_str_Some in Hid. rewrite Hid. cbn [negb].
  destruct (cache_hit _); simpl.
  - split; [|intros [Hc _]; discriminate].
    intros [m Hm]. now destruct (_ ≫= JSON_parse).
  - destruct (Order_findById (orders w) id); simpl; split.
    + intros [m Hm]. discriminate.
    + intros [_ Hp]. discriminate.
    + now intros _.
    + intros _. now eexists.
Qed.

(** With non-empty texts, the text read is truthy exactly when the cache has
    an entry under the key. *)
Lemma cache_hit_false_iff (c : gmap string CacheEntry) (key : string) :
  payloads_nonempty c -> cache_hit (redis_get c key) = false <-> c !! key = None.
Proof.
  intros Hinv. unfold redis_get.
  destruct (c !! key) as [e|] eqn:Hget; simpl; [|now split].
  split; [|discriminate]. intros Hfalse.
  change (truthy_str (Some (payload e)) = false) in Hfalse.
  pose proof (proj2 (truthy_str_Some (payload e)) (Hinv _ _ Hget)). congruence.
Qed.

(** C10.  [getSingleProduct] and [getSingleOrder] answer with a 404 error
    exactly when the cache has no entry under the key of the id and the
    store has no document with the id.  On a hit the parsed text is
    answered with [success = true] whatever the store holds, so also when
    the store has no document with the id.  The cached texts are non-empty,
    and the order id, a segment of the path, is not empty. *)
Theorem single_entity_not_found_iff (id : string) (w : World) :
  payloads_nonempty (redis w) ->
  ((exists m, fst (getSingleProduct id w) = error m 404) <->
   redis w !! ("product-" ++ id) = None /\ Product_findById (products w) id = None)
  /\ (id <> "" ->
      ((exists m, fst (getSingleOrder id w) = error m 404) <->
       redis w !! ("order-" ++ id) = None /\ Order_findById (orders w) id = None))
  /\ (forall e parsed w2,
        redis w !! ("product-" ++ id) = Some e ->
        JSON_parse (payload e) = Some parsed ->
        redis w2 = redis w ->
        getSingleProduct id w2 = (Json 200 true [("product", VJson parsed)], w2))
  /\ (forall e parsed w2,
        id <> "" ->
        redis w !! ("order-" ++ id) = Some e ->
        JSON_parse (payload e) = Some parsed ->
        redis w2 = redis w ->
        getSingleOrder id w2 = (Json 200 true [("order", VJson parsed)], w2)).
Proof.
  intros Hinv. split; [|split; [|split]].
  - rewrite getSingleProduct_404_iff. now rewrite (cache_hit_false_iff _ _ Hinv).
  - intros Hid. rewrite (getSingleOrder_404_iff _ _ Hid).
    now rewrite (cache_hit_false_iff _ _ Hinv).
  - intros e parsed w2 Hget Hparse Hredis.
    assert (Hcached : redis_get (redis w2) ("product-" ++ id) = Some (payload e))
      by (unfold redis_get; now rewrite Hredis, Hget).
    unfold getSingleProduct.
    rewrite Hcached, (cache_hit_Some _ (Hinv _ _ Hget)). simpl. now rewrite Hparse.
  - intros e parsed w2 Hid Hget Hparse Hredis. unfold getSingleOrder.
    assert (Hcached : redis_get (redis w2) ("order-" ++ id) = Some (payload e))
      by (unfold redis_get; now rewrite Hredis, Hget).
    apply truthy_str_Some in Hid. rewrite Hid. cbn [negb].
    rewrite Hcached, (cache_hit_Some _ (Hinv _ _ Hget)). simpl. now rewrite Hparse.
Qed.

End SingleEntity.

(** ** Status codes of the errors *)

Section ErrorStatus.
Context `{Collaborators}.

(** C7 at the review endpoint.  When the user id of the request is that of
    no user, [newReview] forwards the error [Not Logged In] with status 404
    and changes nothing, where [adminOnly] answers the same request
    with 401. *)
Theorem newReview_not_logged_in_status (query_id : option string) (id : string)
    (body : ReviewBody) (w : World) :
  User_findById (users w) query_id = None ->
  newReview query_id id body w = (error "Not Logged In" 404, w)
  /\ exists m, adminOnly query_id w = (error m 401, w).
Proof.
  intros Hnone. split.
  - unfold newReview. now rewrite Hnone.
  - unfold adminOnly. destruct (truthy_str query_id); [rewrite Hnone|]; simpl; eauto.
Qed.

End ErrorStatus.

(** ** The theorems at concrete requests *)

Module Run.

Import Sample.

(** On a store without the product and an empty cache, [getSingleProduct]
    answers 404 and leaves the cache without an entry under the key: the
    result of the lookup is neither stored nor answered. *)
Lemma getSingleProduct_absent_not_stored :
  let run := getSingleProduct "p9" shop in
  redis_get (redis shop) "product-p9" = None
  /\ Product_findById (products shop) "p9" = None
  /\ fst run = error "Product Not Found" 404
  /\ redis_get (redis (snd run)) "product-p9" = None.
Proof. cbv zeta. repeat split. Qed.


Lemma read_endpoint_hit_or_compute_witness :
  handle GetAdminProducts empty_world
  = (Json 200 true [("products", VProducts [])],
     set_redis empty_world (redis_setex ∅ "all-products" 14400 "[]"))
  /\ (let cached := set_redis shop (redis_setex ∅ "all-products" 14400 "[]") in
      handle GetAdminProducts cached
      = (Json 200 true [("products", VJson (JArr []))], cached)).
Proof.
  split.
  - exact (proj1 (proj2 (read_endpoint_hit_or_compute GetAdminProducts KAllProducts
                           empty_world eq_refl)) (or_introl eq_refl)).
  - exact (proj1 (proj1 (read_endpoint_hit_or_compute GetAdminProducts KAllProducts
                           (set_redis shop (redis_setex ∅ "all-products" 14400 "[]"))
                           eq_refl) "[]" eq_refl ltac:(discriminate))).
Defined.

Lemma order_status_transition_witness :
  exists o', Order_findById (orders (processOrder_times 3 "o1" shop)) "o1" = Some o'
             /\ status o' = "Delivered".
Proof.
  exact (proj2 (proj2 (proj2 (proj2 (proj2 (proj2 (proj2 (proj2
           order_status_transition))))))) 3%nat "o1" shop parcel
           ltac:(discriminate) eq_refl eq_refl).
Defined.

Lemma adminOnly_statuses_witness :
  adminOnly None shop = (error "Please log in first" 401, shop)
  /\ adminOnly (Some "u1") shop = (error "You do not have admin privileges" 403, shop)
  /\ adminOnly (Some "u0") shop = (NextOk, shop).
Proof.
  destruct adminOnly_statuses as (Hnone & Huser & Hadmin).
  split; [apply Hnone|]. split.
  - apply (Huser "u1" ann shop); [discriminate|reflexivity|discriminate].
  - apply (Hadmin "u0" root shop); [discriminate|reflexivity|reflexivity].
Defined.

Lemma findAverageRatings_mean_witness :
  (fst (findAverageRatings opinions "p1") == 4)%Q
  /\ snd (findAverageRatings opinions "p1") = 2.
Proof.
  exact (proj2 (proj2 (proj2 (findAverageRatings_mean opinions "p1"))) eq_refl).
Defined.

(** A multipart form that carries the text [0] for the price of a stored
    product whose price is [5]: [updateProduct] answers 200 and the stored
    price is [0] afterwards. *)
Lemma updateProduct_text_zero_overwrites :
  let body := mkUpdateProductBody None (Some (JStr "0")) None None None in
  let run := updateProduct "p1" body None shop in
  Product_findById (products shop) "p1" = Some mug
  /\ price mug = Int 5
  /\ fst run = Json 200 true (msg "Product Updated Successfully")
  /\ price <$> Product_findById (products (snd run)) "p1" = Some (Int 0)
  /\ Product_findById (products (snd run)) "p1" <> Some mug.
Proof. cbv zeta. repeat split. discriminate. Qed.

(** A body whose [shippingInfo] is [null] is refused with all other fields
    truthy; the body of the sample order, which has neither shipping
    charges nor a discount, is accepted. *)
Lemma newOrder_required_fields_witness :
  newOrder
    (mkNewOrderRequestBody (Some JNull) (b_orderItems two_mugs) (b_user two_mugs)
       (b_subtotal two_mugs) (b_tax two_mugs) None None (b_total two_mugs)) "o2" shop
  = (error "Please enter all required fields" 400, shop)
  /\ fst (newOrder two_mugs "o2" shop) = Json 201 true (msg "Order placed successfully").
Proof.
  destruct newOrder_required_fields as (Hmissing & _ & _ & Hpasses).
  split.
  - apply Hmissing. left. right. left. reflexivity.
  - destruct (Hpasses two_mugs "o2" shop eq_refl eq_refl eq_refl eq_refl eq_refl eq_refl)
      as (_ & _ & Hcreated).
    exact (proj2 (Hcreated _ eq_refl) eq_refl).
Defined.

(** The number [0] for the stock and an empty text for the category leave
    the stored values; the text [0] for the price replaces the stored
    price. *)
Lemma updateProduct_changes_truthy_fields_witness :
  let body :=
    mkUpdateProductBody (Some (JStr "Cup")) (Some (JStr "0")) (Some (JNum (Int 0)))
      (Some (JStr "")) None in
  exists p',
    Product_findById (products (snd (updateProduct "p1" body None shop))) "p1" = Some p'
    /\ Some (name p') = Some "Cup" /\ Some (price p') = Some (Int 0)
    /\ stock p' = Int 10 /\ category p' = "kitchen".
Proof.
  cbv zeta.
  destruct (updateProduct_changes_truthy_fields "p1"
              (mkUpdateProductBody (Some (JStr "Cup")) (Some (JStr "0"))
                 (Some (JNum (Int 0))) (Some (JStr "")) None)
              None shop mug eq_refl)
    as (_ & _ & Hsaved & _).
  destruct (Hsaved ltac:(discriminate))
    as (_ & p' & Hfind & Hname & _ & _ & _ & _ & _ & _ & Hcategory & _ & _ & _
        & Hstock & Hprice & _).
  exists p'. split; [exact Hfind|]. split; [exact (Hname eq_refl)|].
  split; [exact (Hprice eq_refl)|]. split; [exact (Hstock eq_refl)|exact (Hcategory eq_refl)].
Defined.

Lemma newReview_upsert_witness :
  let first := mkReviewBody "fine" 3 in
  let second := mkReviewBody "great" 5 in
  let w1 := snd (newReview (Some "u1") "p1" first shop) in
  let w2 := snd (newReview (Some "u1") "p1" second w1) in
  ratings_of "p1" (reviews w2) = [5]
  /\ exists p2, Product_findById (products w2) "p1" = Some p2 /\ numOfReviews p2 = 1.
Proof.
  cbv zeta.
  exact (proj2 (proj2 (proj2 (proj2
           (newReview_upsert (Some "u1") "p1" (mkReviewBody "fine" 3) shop ann mug
              eq_refl eq_refl))) (mkReviewBody "great" 5) eq_refl)).
Defined.


Lemma single_entity_not_found_iff_witness :
  (exists m, fst (getSingleProduct "p9" shop) = error m 404)
  /\ (let cached := set_redis shop (redis_setex ∅ "product-p9" 14400 "{}") in
      Product_findById (products cached) "p9" = None
      /\ getSingleProduct "p9" cached
         = (Json 200 true [("product", VJson (JObj []))], cached)).
Proof.
  split.
  - refine (proj2 (proj1 (single_entity_not_found_iff "p9" shop _))
              (conj eq_refl eq_refl)).
    intros k e Hk. discriminate Hk.
  - split; [reflexivity|].
    refine (proj1 (proj2 (proj2
              (single_entity_not_found_iff "p9"
                 (set_redis shop (redis_setex ∅ "product-p9" 14400 "{}")) _)))
              (mkCacheEntry "{}" 14400) (JObj []) _ eq_refl eq_refl eq_refl).
    intros k e Hk. simpl in Hk. unfold redis_setex in Hk.
    apply lookup_insert_Some in Hk as [[_ <-]|[_ Hk]]; [discriminate|discriminate Hk].
Defined.

Lemma newReview_not_logged_in_status_witness :
  newReview (Some "u7") "p1" (mkReviewBody "fine" 3) shop
  = (error "Not Logged In" 404, shop).
Proof.
  exact (proj1 (newReview_not_logged_in_status (Some "u7") "p1"
                  (mkReviewBody "fine" 3) shop eq_refl)).
Defined.

End Run.

(** * Further properties of the handlers *)

(** ** What a read endpoint touches *)

Section ReadFrame.
Context `{Collaborators}.

Lemma handle_without_view (r : ReadRequest) (w : World) :
  view_of r = None -> exists m, handle r w = (error m 400, w).
Proof.
  destruct r as [[u|]| |id| | | |id|q|id]; cbn [view_of]; try discriminate;
    intros Hview; cbn [handle].
  - unfold myOrders. destruct (truthy_str (Some u)); [discriminate|]. now eexists.
  - now eexists.
  - unfold getSingleOrder. destruct (truthy_str (Some id)); [discriminate|]. now eexists.
Qed.

Lemma handle_collections (r : ReadRequest) (w : World) :
  products (snd (handle r w)) = products w /\ reviews (snd (handle r w)) = reviews w
  /\ users (snd (handle r w)) = users w
  /\ cloudinary_deleted (snd (handle r w)) = cloudinary_deleted w.
Proof.
  destruct (view_of r) as [k|] eqn:Hview.
  - rewrite (handle_read_through r k w Hview). unfold read_through.
    destruct (cache_hit _).
    + now destruct (_ ≫= hit_fields r).
    + now destruct (fallback r w).
  - destruct (handle_without_view r w Hview) as [m ->]. easy.
Qed.

Lemma handle_orders (r : ReadRequest) (w : World) :
  orders (snd (handle r w)) = orders w.
Proof.
  destruct (view_of r) as [k|] eqn:Hview.
  - rewrite (handle_read_through r k w Hview). unfold read_through.
    destruct (cache_hit _).
    + now destruct (_ ≫= hit_fields r).
    + now destruct (fallback r w).
  - now destruct (handle_without_view r w Hview) as [m ->].
Qed.

(** X1.  A read endpoint changes nothing but the entry of the cache under its own
    key: the collections and the log of deleted images stay, and so does
    every entry under another key.  A request it refuses before it builds a
    key gets a 400 error and changes nothing at all. *)
Theorem read_endpoint_frame (r : ReadRequest) (w : World) :
  let w' := snd (handle r w) in
  products w' = products w /\ orders w' = orders w /\ reviews w' = reviews w
  /\ users w' = users w /\ cloudinary_deleted w' = cloudinary_deleted w
  /\ (forall key, (forall k, view_of r = Some k -> key <> cache_key k) ->
      redis w' !! key = redis w !! key)
  /\ (view_of r = None -> w' = w /\ exists m, fst (handle r w) = error m 400).
Proof.
  intros w'. subst w'.
  destruct (view_of r) as [k|] eqn:Hview.
  - rewrite (handle_read_through r k w Hview). unfold read_through.
    destruct (cache_hit _).
    + destruct (_ ≫= hit_fields r); simpl; repeat split; try reflexivity; discriminate.
    + destruct (fallback r w) as [v fields|m|]; simpl; repeat split;
        try reflexivity; try discriminate.
      intros key Hkey. unfold redis_setex.
      apply lookup_insert_ne. intros Heq. now apply (Hkey k).
  - destruct (handle_without_view r w Hview) as [m Hm]. rewrite Hm. simpl.
    repeat split; try reflexivity. now exists m.
Qed.

(** X2.  After a miss the endpoint answers from the cache: with the text it
    stored parsed back, to every later request for the view, whatever the
    collections have become, as long as the cache is as the miss left it. *)
Theorem read_after_miss_hits (r : ReadRequest) (k : CacheQuery) (w : World)
    (v : jsval) (fields fields' : list (string * jsval)) (parsed : json) :
  view_of r = Some k ->
  cache_hit (redis_get (redis w) (cache_key k)) = false ->
  fallback r w = Computed v fields ->
  JSON_stringify v <> "" ->
  JSON_parse (JSON_stringify v) = Some parsed ->
  hit_fields r parsed = Some fields' ->
  fst (handle r w) = Json 200 true fields
  /\ forall w2, redis w2 = redis (snd (handle r w)) ->
                handle r w2 = (Json 200 true fields', w2).
Proof.
  intros Hview Hmiss Hfall Hne Hparse Hfields.
  rewrite (handle_read_through r k w Hview). unfold read_through at 1 2.
  rewrite Hmiss, Hfall. simpl. split; [reflexivity|].
  intros w2 Hredis. rewrite (handle_read_through r k w2 Hview). unfold read_through.
  assert (Hget : redis_get (redis w2) (cache_key k) = Some (JSON_stringify v)).
  { rewrite Hredis. unfold redis_get, redis_setex. now rewrite lookup_insert_eq. }
  rewrite Hget, (cache_hit_Some _ Hne). simpl. rewrite Hparse. simpl.
  now rewrite Hfields.
Qed.

End ReadFrame.

(** ** Who passes the admin-only middleware *)

Section AdminGate.
Context `{Collaborators}.

(** X3.  [adminOnly] calls the next handler exactly for a non-empty id of a
    stored user whose role is [admin]; every other request gets a 401 or a
    403 error.  It never changes anything. *)
Theorem adminOnly_proceeds_iff (query_id : option string) (w : World) :
  snd (adminOnly query_id w) = w
  /\ (fst (adminOnly query_id w) = NextOk <->
      exists id u, query_id = Some id /\ id <> ""
                   /\ User_findById (users w) (Some id) = Some u
                   /\ role u = "admin")
  /\ (fst (adminOnly query_id w) = NextOk
      \/ exists m, fst (adminOnly query_id w) = error m 401
                   \/ fst (adminOnly query_id w) = error m 403).
Proof.
  unfold adminOnly.
  destruct query_id as [id|]; simpl.
  - destruct (String.eqb_spec id "") as [Hid|Hid]; simpl.
    + split; [reflexivity|]. split.
      * split; [discriminate|]. intros (id' & u & [= <-] & Hne & _). contradiction.
      * right. eexists. now left.
    + destruct (List.find _ (users w)) as [u|] eqn:Hfind; simpl.
      * destruct (String.eqb_spec (role u) "admin") as [Hrole|Hrole]; simpl.
        -- split; [reflexivity|]. split; [|now left].
           split; [|reflexivity]. intros _. now exists id, u.
        -- split; [reflexivity|]. split.
           ++ split; [discriminate|].
              intros (id' & u' & [= <-] & _ & Hu & Hadmin).
              unfold User_findById in Hu. congruence.
           ++ right. eexists. now right.
      * split; [reflexivity|]. split.
        -- split; [discriminate|]. intros (id' & u' & [= <-] & _ & Hu & _).
           unfold User_findById in Hu. congruence.
        -- right. eexists. now left.
  - split; [reflexivity|]. split.
    + split; [discriminate|]. intros (id & u & Hq & _). discriminate.
    + right. eexists. now left.
Qed.

End AdminGate.

(** ** Documents found by a key *)

Section Keyed.
Context {A : Type} (key : A -> string).

Abbreviation has_key id := (fun x => String.eqb (key x) id).

Lemma find_key_None (id : string) (l : list A) :
  List.find (has_key id) l = None <-> id ∉ key <$> l.
Proof.
  induction l as [|x l IH]; simpl.
  - split; [intros _; apply not_elem_of_nil|reflexivity].
  - rewrite not_elem_of_cons.
    destruct (String.eqb_spec (key x) id) as [Heq|Hne].
    + split; [discriminate|]. intros [Hid _]. congruence.
    + rewrite IH. split; [intros Hl; split; [congruence|exact Hl]|now intros [_ Hl]].
Qed.

Lemma find_key_Some (id : string) (l : list A) (x : A) :
  List.find (has_key id) l = Some x -> key x = id.
Proof.
  intros Hfind. apply find_some in Hfind as [_ Hx]. now apply String.eqb_eq in Hx.
Qed.

Lemma update_first_keys (id : string) (doc : A) (l : list A) :
  key doc = id -> key <$> update_first (has_key id) doc l = key <$> l.
Proof.
  intros Hdoc. induction l as [|x l IH]; simpl; [reflexivity|].
  destruct (String.eqb_spec (key x) id) as [Heq|Hne]; simpl.
  - congruence.
  - f_equal. exact IH.
Qed.

Lemma update_first_other_key (id id' : string) (doc : A) (l : list A) :
  key doc = id -> id' <> id ->
  List.find (has_key id') (update_first (has_key id) doc l) = List.find (has_key id') l.
Proof.
  intros Hdoc Hne. apply find_update_first_other.
  - apply String.eqb_neq. congruence.
  - intros x Hx. apply String.eqb_eq in Hx. apply String.eqb_neq. congruence.
Qed.

Lemma delete_first_other_key (id id' : string) (l : list A) :
  id' <> id ->
  List.find (has_key id') (delete_first (has_key id) l) = List.find (has_key id') l.
Proof.
  intros Hne. induction l as [|x l IH]; simpl; [reflexivity|].
  destruct (String.eqb_spec (key x) id) as [Heq|Hx]; simpl.
  - destruct (String.eqb_spec (key x) id'); [congruence|reflexivity].
  - now rewrite IH.
Qed.

Lemma delete_first_length (id : string) (l : list A) (x : A) :
  List.find (has_key id) l = Some x ->
  S (length (delete_first (has_key id) l)) = length l.
Proof.
  induction l as [|y l IH]; simpl; [discriminate|].
  destruct (String.eqb (key y) id); simpl; [reflexivity|].
  intros Hfind. now rewrite IH.
Qed.

Lemma delete_first_keys_subset (id y : string) (l : list A) :
  y ∈ key <$> delete_first (has_key id) l -> y ∈ key <$> l.
Proof.
  induction l as [|x l IH]; simpl; [trivial|].
  destruct (String.eqb (key x) id); simpl; rewrite !elem_of_cons; intuition.
Qed.

Lemma delete_first_NoDup (id : string) (l : list A) :
  NoDup (key <$> l) -> NoDup (key <$> delete_first (has_key id) l).
Proof.
  induction l as [|x l IH]; simpl; [trivial|].
  rewrite NoDup_cons. intros [Hx Hl].
  destruct (String.eqb (key x) id); simpl; [exact Hl|].
  apply NoDup_cons. split; [|now apply IH].
  intros Hin. apply Hx. now apply delete_first_keys_subset in Hin.
Qed.

Lemma delete_first_gone (id : string) (l : list A) :
  NoDup (key <$> l) -> List.find (has_key id) (delete_first (has_key id) l) = None.
Proof.
  induction l as [|x l IH]; simpl; [reflexivity|].
  rewrite NoDup_cons. intros [Hx Hl].
  destruct (String.eqb (key x) id) eqn:Hkey; simpl.
  - apply find_key_None. apply String.eqb_eq in Hkey. subst id. exact Hx.
  - rewrite Hkey. now apply IH.
Qed.

Lemma delete_first_absent (id : string) (l : list A) :
  List.find (has_key id) l = None -> delete_first (has_key id) l = l.
Proof.
  induction l as [|x l IH]; simpl; [reflexivity|].
  destruct (String.eqb (key x) id); [discriminate|]. intros Hnone. now rewrite IH.
Qed.

End Keyed.

(** ** Orders: processing, deleting, creating *)

Section Orders.
Context `{Collaborators}.

Lemma Order_findById_id (l : list Order) (id : string) (o : Order) :
  Order_findById l id = Some o -> o_id o = id.
Proof. apply (find_key_Some o_id). Qed.

Lemma processOrder_refused (id : string) (w : World) :
  (id = "" -> processOrder id w = (error "Order ID is required" 400, w))
  /\ (id <> "" -> Order_findById (orders w) id = None ->
      processOrder id w = (error "Order not found" 404, w)).
Proof.
  unfold processOrder. split.
  - now intros ->.
  - intros Hid Hnone. now rewrite (proj2 (truthy_str_Some id) Hid), Hnone.
Qed.

Lemma processOrder_found (id : string) (w : World) (o : Order) :
  id <> "" -> Order_findById (orders w) id = Some o ->
  snd (processOrder id w)
  = mkWorld
      (invalidateCache
         (mkInvalidateCacheProps false true true false (Some (user o)) (Some (o_id o)) [])
         (redis w))
      (products w)
      (Order_save (set_status o (next_status (status o))) (orders w))
      (reviews w) (users w) (cloudinary_deleted w).
Proof.
  intros Hid Hfind. unfold processOrder.
  now rewrite (proj2 (truthy_str_Some id) Hid), Hfind.
Qed.

Lemma processOrder_cases (id : string) (w : World) :
  snd (processOrder id w) = w
  \/ exists o, id <> "" /\ Order_findById (orders w) id = Some o.
Proof.
  destruct (String.eqb_spec id "") as [Hid|Hid].
  - left. now rewrite (proj1 (processOrder_refused id w) Hid).
  - destruct (Order_findById (orders w) id) as [o|] eqn:Hfind.
    + right. now exists o.
    + left. now rewrite (proj2 (processOrder_refused id w) Hid Hfind).
Qed.

Lemma processOrder_ids (id : string) (w : World) :
  o_id <$> orders (snd (processOrder id w)) = o_id <$> orders w.
Proof.
  destruct (processOrder_cases id w) as [->|(o & Hid & Hfind)]; [reflexivity|].
  rewrite (processOrder_found id w o Hid Hfind). simpl.
  unfold Order_save. simpl. rewrite (Order_findById_id _ _ _ Hfind).
  apply (update_first_keys o_id). exact (Order_findById_id _ _ _ Hfind).
Qed.

(** X4.  [processOrder] touches one order only, and only its status: the other
    collections, the ids of the orders and their places, and every order
    under another id stay as they are.  With an empty id or an id of no order
    it answers 400 or 404 and changes nothing, the cache included. *)
Theorem processOrder_frame (id : string) (w : World) :
  let w' := snd (processOrder id w) in
  products w' = products w /\ reviews w' = reviews w /\ users w' = users w
  /\ cloudinary_deleted w' = cloudinary_deleted w
  /\ o_id <$> orders w' = o_id <$> orders w
  /\ (forall id', id' <> id ->
      Order_findById (orders w') id' = Order_findById (orders w) id')
  /\ (forall o, id <> "" -> Order_findById (orders w) id = Some o ->
      Order_findById (orders w') id = Some (set_status o (next_status (status o))))
  /\ (id = "" -> processOrder id w = (error "Order ID is required" 400, w))
  /\ (id <> "" -> Order_findById (orders w) id = None ->
      processOrder id w = (error "Order not found" 404, w)).
Proof.
  intros w'. subst w'.
  assert (Hframe : products (snd (processOrder id w)) = products w
                   /\ reviews (snd (processOrder id w)) = reviews w
                   /\ users (snd (processOrder id w)) = users w
                   /\ cloudinary_deleted (snd (processOrder id w))
                      = cloudinary_deleted w).
  { destruct (processOrder_cases id w) as [->|(o & Hid & Hfind)]; [easy|].
    now rewrite (processOrder_found id w o Hid Hfind). }
  destruct Hframe as (Hp & Hr & Hu & Hc).
  split; [exact Hp|]. split; [exact Hr|]. split; [exact Hu|]. split; [exact Hc|].
  split; [apply processOrder_ids|]. split; [|split].
  - intros id' Hne.
    destruct (processOrder_cases id w) as [->|(o & Hid & Hfind)]; [reflexivity|].
    rewrite (processOrder_found id w o Hid Hfind). simpl.
    unfold Order_save, Order_findById. simpl. rewrite (Order_findById_id _ _ _ Hfind).
    apply (update_first_other_key o_id); [|exact Hne].
    exact (Order_findById_id _ _ _ Hfind).
  - intros o Hid Hfind. now apply processOrder_advances.
  - apply processOrder_refused.
Qed.

(** X5.  [deleteOrder] on a stored order, the ids of the orders being unique:
    the order is gone, every order under another id stays, the ids stay
    unique, and the other collections are untouched.  Processing or deleting
    the order again answers 404. *)
Theorem deleteOrder_removes (id : string) (w : World) (o : Order) :
  id <> "" -> Order_findById (orders w) id = Some o -> NoDup (o_id <$> orders w) ->
  let w' := snd (deleteOrder id w) in
  fst (deleteOrder id w) = Json 200 true (msg "Order deleted successfully")
  /\ Order_findById (orders w') id = None
  /\ (forall id', id' <> id ->
      Order_findById (orders w') id' = Order_findById (orders w) id')
  /\ S (length (orders w')) = length (orders w)
  /\ NoDup (o_id <$> orders w')
  /\ products w' = products w /\ reviews w' = reviews w /\ users w' = users w
  /\ fst (deleteOrder id w') = error "Order not found" 404
  /\ fst (processOrder id w') = error "Order not found" 404.
Proof.
  intros Hid Hfind Hunique w'.
  pose proof (Order_findById_id _ _ _ Hfind) as Hoid.
  assert (Horders : orders w' = delete_first (fun x => String.eqb (o_id x) id) (orders w)).
  { subst w'. unfold deleteOrder.
    rewrite (proj2 (truthy_str_Some id) Hid), Hfind. simpl.
    unfold Order_deleteOne. now rewrite Hoid. }
  assert (Hgone : Order_findById (orders w') id = None).
  { rewrite Horders. now apply (delete_first_gone o_id). }
  split; [|split; [exact Hgone|]].
  { unfold deleteOrder. now rewrite (proj2 (truthy_str_Some id) Hid), Hfind. }
  split; [|split; [|split; [|split; [|split; [|split; [|split]]]]]].
  - intros id' Hne. rewrite Horders. now apply (delete_first_other_key o_id).
  - rewrite Horders. now apply (delete_first_length o_id id _ o).
  - rewrite Horders. now apply delete_first_NoDup.
  - subst w'. unfold deleteOrder.
    now rewrite (proj2 (truthy_str_Some id) Hid), Hfind.
  - subst w'. unfold deleteOrder.
    now rewrite (proj2 (truthy_str_Some id) Hid), Hfind.
  - subst w'. unfold deleteOrder.
    now rewrite (proj2 (truthy_str_Some id) Hid), Hfind.
  - unfold deleteOrder at 1.
    now rewrite (proj2 (truthy_str_Some id) Hid), Hgone.
  - unfold processOrder.
    now rewrite (proj2 (truthy_str_Some id) Hid), Hgone.
Qed.

(** X6.  The ids of the orders stay unique under every handler of the order
    controller; [newOrder] needs an id that no stored order has. *)
Theorem order_ids_stay_unique (w : World) :
  NoDup (o_id <$> orders w) ->
  (forall id, NoDup (o_id <$> orders (snd (processOrder id w))))
  /\ (forall id, NoDup (o_id <$> orders (snd (deleteOrder id w))))
  /\ (forall body new_id,
        Order_findById (orders w) new_id = None ->
        NoDup (o_id <$> orders (snd (newOrder body new_id w))))
  /\ (forall r, NoDup (o_id <$> orders (snd (handle r w)))).
Proof.
  intros Hunique. split; [|split; [|split]].
  - intros id. now rewrite processOrder_ids.
  - intros id. unfold deleteOrder.
    destruct (negb _); [exact Hunique|].
    destruct (Order_findById (orders w) id) as [o|]; [|exact Hunique].
    simpl. unfold Order_deleteOne. now apply delete_first_NoDup.
  - intros body new_id Hfresh.
    destruct (newOrder_orders body new_id w) as [->|[created ->]]; [exact Hunique|].
    rewrite fmap_app. simpl.
    apply NoDup_app. split; [exact Hunique|]. split; [|apply NoDup_singleton].
    intros x Hx Hin. apply list_elem_of_singleton in Hin. subst x.
    now apply (find_key_None o_id) in Hfresh.
  - intros r. now rewrite handle_orders.
Qed.

End Orders.

Section OrderLifecycle.
Context `{Collaborators}.

(** X7.  [newOrder] creates the order before it reduces the stock and does not
    take it back: when [reduceStock] throws, the handler throws with the
    order stored all the same, the products as [reduceStock] left them and
    the cache as it was.  A body that the test rejects, or of which the
    store makes no order, stores nothing. *)
Theorem newOrder_stock_failure (body : NewOrderRequestBody) (new_id : string)
    (w : World) (created : Order) :
  newOrder_rejects body = false ->
  Order_create body = Some created ->
  snd (reduceStock (b_orderItems body) (products w)) = false ->
  let w' := snd (newOrder body new_id w) in
  fst (newOrder body new_id w) = Throws
  /\ orders w' = (orders w ++ [set_o_id created new_id])%list
  /\ products w' = fst (reduceStock (b_orderItems body) (products w))
  /\ redis w' = redis w
  /\ (forall body' w0,
        newOrder_rejects body' = true \/ Order_create body' = None ->
        snd (newOrder body' new_id w0) = w0).
Proof.
  intros Hpass Hcreated Hthrew w'. subst w'.
  rewrite (newOrder_accepted body new_id w created Hpass Hcreated). cbv zeta.
  rewrite Hthrew. cbn. repeat split.
  intros body' w0 [Hrej|Hnone]; unfold newOrder.
  - now rewrite Hrej.
  - rewrite Hnone. now destruct (newOrder_rejects body').
Qed.

(** X8.  An order that [newOrder] has created under an id that no stored order
    had is found under that id, as the store made it of the body, whether or
    not the stock could be reduced; a call of [processOrder] on the id then
    answers 200 and leaves it with the next status, which is [Shipped] for
    an order that the store creates in [Processing]. *)
Theorem newOrder_then_processOrder (body : NewOrderRequestBody) (new_id : string)
    (w : World) (created : Order) :
  newOrder_rejects body = false ->
  Order_create body = Some created ->
  new_id <> "" ->
  Order_findById (orders w) new_id = None ->
  let w1 := snd (newOrder body new_id w) in
  let w2 := snd (processOrder new_id w1) in
  Order_findById (orders w1) new_id = Some (set_o_id created new_id)
  /\ fst (processOrder new_id w1) = Json 200 true (msg "Order processed successfully")
  /\ (exists o', Order_findById (orders w2) new_id = Some o'
                 /\ status o' = next_status (status created)
                 /\ (status created = "Processing" -> status o' = "Shipped")).
Proof.
  intros Hpass Hcreated Hid Hfresh w1 w2.
  assert (Hfound : Order_findById (orders w1) new_id = Some (set_o_id created new_id)).
  { subst w1. rewrite (newOrder_accepted body new_id w created Hpass Hcreated).
    cbn [snd orders]. unfold Order_findById in *.
    rewrite (find_app_none _ _ _ Hfresh). simpl. now rewrite String.eqb_refl. }
  split; [exact Hfound|].
  destruct (processOrder_advances new_id w1 _ Hid Hfound) as [Hresp Hnext].
  split; [exact Hresp|].
  eexists. split; [exact Hnext|]. split; [reflexivity|].
  simpl. now intros ->.
Qed.

End OrderLifecycle.

(** ** Products: creating, deleting, replacing images *)

Section Products.
Context `{Collaborators}.




(** What [newProduct] does to the world: nothing, or one product more under
    the new id and an invalidated cache. *)
Lemma newProduct_world (body : NewProductRequestBody) (files : option (list string))
    (new_id : string) (defaults : Q * Z) (w : World) :
  snd (newProduct body files new_id defaults w) = w
  \/ exists created,
       p_id created = new_id
       /\ snd (newProduct body files new_id defaults w)
          = mkWorld
              (invalidateCache (mkInvalidateCacheProps true false true false None None [])
                 (redis w))
              (products w ++ [created]) (orders w) (reviews w) (users w)
              (cloudinary_deleted w).
Proof.
  unfold newProduct. destruct files as [l|]; [|now left].
  destruct (Z.ltb _ 1); [now left|]. destruct (Z.ltb 5 _); [now left|].
  match goal with
  | |- context [if ?missing then (error "Please enter All Fields" 400, w) else _] =>
    destruct missing
  end; [now left|].
  destruct (np_category body) as [[| | |c| |]|]; try now left.
  destruct (np_name body ≫= cast_String), (np_price body ≫= cast_Number),
    (np_description body ≫= cast_String), (np_stock body ≫= cast_Number),
    (cast_String (JStr (toLowerCase c))); try now left.
  right. eexists (mkProduct new_id _ _ _ _ _ _ _ _). split; reflexivity.
Qed.


End Products.

Section ProductRemoval.
Context `{Collaborators}.

Lemma deleteProduct_found (id : string) (w : World) (p : Product) :
  Product_findById (products w) id = Some p ->
  deleteProduct id w
  = (Json 200 true (msg "Product Deleted Successfully"),
     mkWorld
       (invalidateCache (mkInvalidateCacheProps true false true false None None [p_id p])
          (redis w))
       (delete_first (fun x => String.eqb (p_id x) id) (products w))
       (orders w) (reviews w) (users w)
       (cloudinary_deleted w ++ (public_id <$> photos p))).
Proof.
  intros Hfind. unfold deleteProduct. rewrite Hfind. simpl.
  unfold Product_deleteOne. now rewrite (Product_findById_id _ _ _ Hfind).
Qed.

(** X10.  [deleteProduct] on a stored product, the ids of the products being
    unique: the product is gone and its images, and no others, are handed to
    the image host for deletion; every other product stays, and so do the
    orders and all reviews, those of the deleted product included.  The
    handlers that look the product up afterwards answer 404.  With an id of
    no product it answers 404 and changes nothing. *)
Theorem deleteProduct_removes (id : string) (w : World) (p : Product) :
  Product_findById (products w) id = Some p -> NoDup (p_id <$> products w) ->
  let w' := snd (deleteProduct id w) in
  fst (deleteProduct id w) = Json 200 true (msg "Product Deleted Successfully")
  /\ Product_findById (products w') id = None
  /\ (forall id', id' <> id ->
      Product_findById (products w') id' = Product_findById (products w) id')
  /\ NoDup (p_id <$> products w')
  /\ cloudinary_deleted w' = (cloudinary_deleted w ++ (public_id <$> photos p))%list
  /\ reviews w' = reviews w /\ orders w' = orders w /\ users w' = users w
  /\ fst (deleteProduct id w') = error "Product Not Found" 404
  /\ (forall body files, fst (updateProduct id body files w') = error "Product Not Found" 404)
  /\ (forall query_id u body,
        User_findById (users w) query_id = Some u ->
        fst (newReview query_id id body w') = error "Product Not Found" 404).
Proof.
  intros Hfind Hunique w'. subst w'.
  rewrite (deleteProduct_found id w p Hfind). simpl.
  assert (Hgone : Product_findById
                    (delete_first (fun x => String.eqb (p_id x) id) (products w)) id
                  = None) by now apply (delete_first_gone p_id).
  split; [reflexivity|]. split; [exact Hgone|]. split.
  { intros id' Hne. now apply (delete_first_other_key p_id). }
  split; [now apply delete_first_NoDup|].
  split; [reflexivity|]. split; [reflexivity|]. split; [reflexivity|].
  split; [reflexivity|]. split; [|split].
  - unfold deleteProduct. simpl. now rewrite Hgone.
  - intros body files. unfold updateProduct. simpl. now rewrite Hgone.
  - intros query_id u body Hu. unfold newReview. simpl. now rewrite Hu, Hgone.
Qed.

Lemma deleteProduct_unknown (id : string) (w : World) :
  Product_findById (products w) id = None ->
  deleteProduct id w = (error "Product Not Found" 404, w).
Proof. intros Hnone. unfold deleteProduct. now rewrite Hnone. Qed.

Lemma updateProduct_unknown (id : string) (body : UpdateProductBody)
    (files : option (list string)) (w : World) :
  Product_findById (products w) id = None ->
  updateProduct id body files w = (error "Product Not Found" 404, w).
Proof. intros Hnone. unfold updateProduct. now rewrite Hnone. Qed.

Lemma updateProduct_ids (id : string) (body : UpdateProductBody)
    (files : option (list string)) (w : World) :
  p_id <$> products (snd (updateProduct id body files w)) = p_id <$> products w.
Proof.
  destruct (Product_findById (products w) id) as [p|] eqn:Hfind.
  - rewrite (updateProduct_found id body files w p Hfind).
    destruct (updated_product body files p) as [p'|] eqn:Hsaved; [|reflexivity].
    cbn [snd products]. unfold Product_save. apply (update_first_keys p_id).
    reflexivity.
  - now rewrite (updateProduct_unknown id body files w Hfind).
Qed.

(** X11.  [updateProduct] hands to the image host for deletion the images the
    product had, all of them and no others, when at least one file comes with
    the request, and none otherwise; the ids of the products and their places
    stay.  With an id of no product it answers 404 and changes nothing: no
    image is deleted and the cache is not invalidated. *)
Theorem updateProduct_images (id : string) (body : UpdateProductBody)
    (files : option (list string)) (w : World) :
  let w' := snd (updateProduct id body files w) in
  (forall p, Product_findById (products w) id = Some p ->
             cloudinary_deleted w'
             = (cloudinary_deleted w
                ++ (if has_photos files then public_id <$> photos p else []))%list)
  /\ p_id <$> products w' = p_id <$> products w
  /\ (Product_findById (products w) id = None ->
      updateProduct id body files w = (error "Product Not Found" 404, w)).
Proof.
  intros w'. subst w'. split; [|split].
  - intros p Hfind. rewrite (updateProduct_found id body files w p Hfind).
    now destruct (updated_product body files p).
  - apply updateProduct_ids.
  - apply updateProduct_unknown.
Qed.

End ProductRemoval.

(** ** Reviews: what a submission leaves alone *)

Lemma filter_update_first_other {A : Type} (is_doc other : A -> bool) (doc : A)
    (l : list A) :
  other doc = false -> (forall x, is_doc x = true -> other x = false) ->
  List.filter other (update_first is_doc doc l) = List.filter other l.
Proof.
  intros Hdoc Hdisjoint. induction l as [|y l IH]; simpl; [reflexivity|].
  destruct (is_doc y) eqn:Hy; simpl.
  - now rewrite Hdoc, (Hdisjoint y Hy).
  - now rewrite IH.
Qed.

Lemma review_of_other_pair (u p u' p' : string) (r : Review) :
  r_user r = u -> r_product r = p -> u' <> u \/ p' <> p -> review_of u' p' r = false.
Proof.
  intros Hu Hp Hne. unfold review_of. rewrite Hu, Hp.
  apply andb_false_iff.
  destruct Hne as [Hne|Hne]; [left|right]; apply String.eqb_neq; congruence.
Qed.

Lemma save_or_create_review_other_pair (l : list Review) (u p u' p' : string)
    (body : ReviewBody) :
  u' <> u \/ p' <> p ->
  List.filter (review_of u' p') (save_or_create_review (Review_findOne l u p) u p body l)
  = List.filter (review_of u' p') l.
Proof.
  intros Hne. unfold save_or_create_review.
  destruct (Review_findOne l u p) as [r|] eqn:Hfind.
  - destruct (Review_findOne_pair _ _ _ _ Hfind) as [Hu Hp].
    apply filter_update_first_other.
    + now apply (review_of_other_pair u p).
    + intros x Hx. apply review_of_true in Hx as [Hxu Hxp].
      now apply (review_of_other_pair u p).
  - rewrite List.filter_app. simpl.
    rewrite (review_of_other_pair u p u' p'
               (mkReview (rb_comment body) (rb_rating body) u p) eq_refl eq_refl Hne).
    apply app_nil_r.
Qed.

Section ReviewFrame.
Context `{Collaborators}.

Lemma newReview_cases (query_id : option string) (id : string) (body : ReviewBody)
    (w : World) :
  (newReview query_id id body w = (error "Not Logged In" 404, w)
   /\ User_findById (users w) query_id = None)
  \/ (newReview query_id id body w = (error "Product Not Found" 404, w)
      /\ Product_findById (products w) id = None)
  \/ exists u product,
       User_findById (users w) query_id = Some u
       /\ Product_findById (products w) id = Some product.
Proof.
  unfold newReview.
  destruct (User_findById (users w) query_id) as [u|]; [|now left].
  destruct (Product_findById (products w) id) as [product|]; [|right; now left].
  right. right. now exists u, product.
Qed.

Lemma newReview_ids (query_id : option string) (id : string) (body : ReviewBody)
    (w : World) :
  p_id <$> products (snd (newReview query_id id body w)) = p_id <$> products w.
Proof.
  destruct (newReview_cases query_id id body w)
    as [[-> _]|[[-> _]|(u & product & Hu & Hp)]]; try reflexivity.
  rewrite (newReview_found _ _ _ _ _ _ Hu Hp). simpl.
  unfold Product_save. simpl. now apply (update_first_keys p_id).
Qed.

(** X12.  A submission of a review leaves alone what it is not about: the orders,
    the users, every product under another id, the ids of the products, and
    the reviews of every other pair of user and product.  When the user or
    the product is not found it answers 404 and changes nothing. *)
Theorem newReview_frame (query_id : option string) (id : string) (body : ReviewBody)
    (w : World) :
  let w' := snd (newReview query_id id body w) in
  orders w' = orders w /\ users w' = users w
  /\ cloudinary_deleted w' = cloudinary_deleted w
  /\ p_id <$> products w' = p_id <$> products w
  /\ (forall id', id' <> id ->
      Product_findById (products w') id' = Product_findById (products w) id')
  /\ (forall u u' p',
        User_findById (users w) query_id = Some u -> u' <> u_id u \/ p' <> id ->
        List.filter (review_of u' p') (reviews w')
        = List.filter (review_of u' p') (reviews w))
  /\ (User_findById (users w) query_id = None
      \/ Product_findById (products w) id = None ->
      w' = w /\ exists m, fst (newReview query_id id body w) = error m 404).
Proof.
  intros w'. subst w'.
  destruct (newReview_cases query_id id body w)
    as [[Hrun Hnone]|[[Hrun Hnone]|(u & product & Hu & Hp)]].
  - rewrite Hrun. simpl. repeat split; try reflexivity. now eexists.
  - rewrite Hrun. simpl. repeat split; try reflexivity. now eexists.
  - pose proof (Product_findById_id _ _ _ Hp) as Hid.
    split; [|split; [|split; [|split; [|split; [|split]]]]];
      try (rewrite (newReview_found _ _ _ _ _ _ Hu Hp); reflexivity).
    + apply newReview_ids.
    + intros id' Hne. rewrite (newReview_found _ _ _ _ _ _ Hu Hp). simpl.
      apply Product_save_other. simpl. congruence.
    + intros u0 u' p' Hu0 Hne. assert (u0 = u) as -> by congruence.
      rewrite (newReview_found _ _ _ _ _ _ Hu Hp). simpl. rewrite Hid.
      now apply save_or_create_review_other_pair.
    + intros [Hnone|Hnone]; congruence.
Qed.

(** X13.  The ids of the products stay unique under every handler of the product
    controller; [newProduct] needs an id that no stored product has. *)
Theorem product_ids_stay_unique (w : World) :
  NoDup (p_id <$> products w) ->
  (forall id body files, NoDup (p_id <$> products (snd (updateProduct id body files w))))
  /\ (forall id, NoDup (p_id <$> products (snd (deleteProduct id w))))
  /\ (forall query_id id body,
        NoDup (p_id <$> products (snd (newReview query_id id body w))))
  /\ (forall body files new_id defaults,
        Product_findById (products w) new_id = None ->
        NoDup (p_id <$> products (snd (newProduct body files new_id defaults w))))
  /\ (forall r, NoDup (p_id <$> products (snd (handle r w)))).
Proof.
  intros Hunique. split; [|split; [|split; [|split]]].
  - intros id body files. now rewrite updateProduct_ids.
  - intros id. destruct (Product_findById (products w) id) as [p|] eqn:Hfind.
    + rewrite (deleteProduct_found id w p Hfind). simpl. now apply delete_first_NoDup.
    + now rewrite (deleteProduct_unknown id w Hfind).
  - intros query_id id body. now rewrite newReview_ids.
  - intros body files new_id defaults Hfresh.
    destruct (newProduct_world body files new_id defaults w)
      as [->|(created & Hid & ->)]; [exact Hunique|].
    cbn [products]. rewrite fmap_app. simpl. rewrite Hid.
    apply NoDup_app. split; [exact Hunique|]. split; [|apply NoDup_singleton].
    intros x Hx Hin. apply list_elem_of_singleton in Hin. subst x.
    now apply (find_key_None p_id) in Hfresh.
  - intros r. now rewrite (proj1 (handle_collections r w)).
Qed.

End ReviewFrame.

(** ** Reading after writing *)

Section ReadAfterWrite.
Context `{Collaborators}.

Lemma redis_get_absent (c : gmap string CacheEntry) (key : string) :
  c !! key = None -> redis_get c key = None.
Proof. intros Hnone. unfold redis_get. now rewrite Hnone. Qed.

Lemma getSingleProduct_uncached (id : string) (w : World) :
  redis w !! ("product-" ++ id) = None ->
  fst (getSingleProduct id w)
  = match Product_findById (products w) id with
    | Some p => Json 200 true [("product", VProduct p)]
    | None => error "Product Not Found" 404
    end.
Proof.
  intros Hnone. unfold getSingleProduct. rewrite (redis_get_absent _ _ Hnone). simpl.
  now destruct (Product_findById (products w) id).
Qed.

Lemma getAdminProducts_uncached (w : World) :
  redis w !! "all-products" = None ->
  fst (getAdminProducts w) = Json 200 true [("products", VProducts (products w))].
Proof.
  intros Hnone. unfold getAdminProducts. now rewrite (redis_get_absent _ _ Hnone).
Qed.

Lemma getSingleOrder_uncached (id : string) (w : World) :
  id <> "" -> redis w !! ("order-" ++ id) = None ->
  fst (getSingleOrder id w)
  = match Order_findById (orders w) id with
    | Some o => Json 200 true [("order", VPopulatedOrder (populate_order_user (users w) o))]
    | None => error "Order not found" 404
    end.
Proof.
  intros Hid Hnone. unfold getSingleOrder.
  rewrite (proj2 (truthy_str_Some id) Hid), (redis_get_absent _ _ Hnone). simpl.
  now destruct (Order_findById (orders w) id).
Qed.

Lemma allOrders_uncached (w : World) :
  redis w !! "all-orders" = None ->
  fst (allOrders w)
  = Json 200 true
      [("orders", VPopulatedOrders (populate_order_user (users w) <$> orders w))].
Proof.
  intros Hnone. unfold allOrders. now rewrite (redis_get_absent _ _ Hnone).
Qed.

(** X14.  With an invalidator that drops the keys of the products it is told
    about, a read that follows a write sees the write: after an
    [updateProduct] that answers 200 and after [newReview] the single
    product and the list of all products are answered from the store, with
    the product as saved, and after [deleteProduct] the single product is a
    404 and the list of all products is answered from the store. *)
Theorem product_read_after_write (id : string) (w : World) (p : Product) :
  drops_product_keys ->
  Product_findById (products w) id = Some p ->
  (forall body files,
      let w1 := snd (updateProduct id body files w) in
      fst (updateProduct id body files w)
      = Json 200 true (msg "Product Updated Successfully") ->
      exists p', Product_findById (products w1) id = Some p'
                 /\ updated_product body files p = Some p'
                 /\ fst (getSingleProduct id w1) = Json 200 true [("product", VProduct p')]
                 /\ fst (getAdminProducts w1)
                    = Json 200 true [("products", VProducts (products w1))])
  /\ (forall query_id body u,
        User_findById (users w) query_id = Some u ->
        let w1 := snd (newReview query_id id body w) in
        exists p', Product_findById (products w1) id = Some p'
                   /\ (ratings p', numOfReviews p') = findAverageRatings (reviews w1) id
                   /\ fst (getSingleProduct id w1)
                      = Json 200 true [("product", VProduct p')]
                   /\ fst (getAdminProducts w1)
                      = Json 200 true [("products", VProducts (products w1))])
  /\ (NoDup (p_id <$> products w) ->
      let w1 := snd (deleteProduct id w) in
      fst (getSingleProduct id w1) = error "Product Not Found" 404
      /\ fst (getAdminProducts w1) = Json 200 true [("products", VProducts (products w1))]).
Proof.
  intros Hdrops Hfind.
  pose proof (Product_findById_id _ _ _ Hfind) as Hid.
  assert (Htags : forall review c,
             invalidateCache
               (mkInvalidateCacheProps true false true review None None [p_id p]) c
             !! ("product-" ++ id) = None
             /\ invalidateCache
                  (mkInvalidateCacheProps true false true review None None [p_id p]) c
                !! "all-products" = None).
  { intros review c.
    destruct (Hdrops (mkInvalidateCacheProps true false true review None None [p_id p])
                c eq_refl) as (Hall & _ & _ & Hone).
    split; [|exact Hall]. apply Hone. simpl. rewrite Hid. apply list_elem_of_here. }
  split; [|split].
  - intros body files w1 Hok. subst w1.
    rewrite (updateProduct_found id body files w p Hfind) in Hok |- *.
    destruct (updated_product body files p) as [p'|] eqn:Hsaved; [|discriminate Hok].
    pose proof (proj1 (updated_product_Some body files p p' Hsaved)) as Hpid.
    cbn [snd].
    assert (Hfound : Product_findById (Product_save p' (products w)) id = Some p').
    { rewrite <- Hid. apply Product_save_found; [now rewrite Hid|exact Hpid]. }
    exists p'. split; [exact Hfound|]. split; [reflexivity|]. split.
    + rewrite getSingleProduct_uncached; [cbn [products]; now rewrite Hfound|].
      apply Htags.
    + apply getAdminProducts_uncached. apply Htags.
  - intros query_id body u Hu w1.
    pose proof (newReview_found query_id id body w u p Hu Hfind) as Hrun.
    cbv zeta in Hrun.
    destruct (newReview_persists_ratings query_id id body w u p Hu Hfind)
      as (p' & Hfound & Hratings).
    fold w1 in Hfound, Hratings.
    exists p'. split; [exact Hfound|]. split; [exact Hratings|]. split.
    + rewrite getSingleProduct_uncached; [now rewrite Hfound|].
      subst w1. rewrite Hrun. simpl. apply Htags.
    + apply getAdminProducts_uncached. subst w1. rewrite Hrun. simpl. apply Htags.
  - intros Hunique w1. subst w1. rewrite (deleteProduct_found id w p Hfind). simpl.
    split.
    + rewrite getSingleProduct_uncached; [|apply Htags]. cbn [products].
      pose proof (delete_first_gone p_id id (products w) Hunique) as Hgone.
      unfold Product_findById. now rewrite Hgone.
    + apply getAdminProducts_uncached. simpl. apply Htags.
Qed.

(** X15.  With an invalidator that drops the keys of the orders it is told about:
    after [processOrder] the single order and the list of all orders are
    answered from the store, with the new status, and after [deleteOrder]
    the single order is a 404. *)
Theorem order_read_after_write (id : string) (w : World) (o : Order) :
  drops_order_keys ->
  id <> "" -> Order_findById (orders w) id = Some o ->
  (let w1 := snd (processOrder id w) in
   fst (getSingleOrder id w1)
   = Json 200 true
       [("order",
         VPopulatedOrder
           (populate_order_user (users w) (set_status o (next_status (status o)))))]
   /\ fst (allOrders w1)
      = Json 200 true
          [("orders", VPopulatedOrders (populate_order_user (users w) <$> orders w1))])
  /\ (NoDup (o_id <$> orders w) ->
      let w1 := snd (deleteOrder id w) in
      fst (getSingleOrder id w1) = error "Order not found" 404
      /\ fst (allOrders w1)
         = Json 200 true
             [("orders", VPopulatedOrders (populate_order_user (users w) <$> orders w1))]).
Proof.
  intros Hdrops Hid Hfind.
  pose proof (Order_findById_id _ _ _ Hfind) as Hoid.
  assert (Htags : forall u c,
             invalidateCache
               (mkInvalidateCacheProps false true true false (Some u) (Some (o_id o)) []) c
             !! ("order-" ++ id) = None
             /\ invalidateCache
                  (mkInvalidateCacheProps false true true false (Some u) (Some (o_id o)) [])
                  c
                !! "all-orders" = None).
  { intros u c.
    destruct (Hdrops
                (mkInvalidateCacheProps false true true false (Some u) (Some (o_id o)) [])
                c eq_refl) as (Hall & _ & Hone).
    split; [|exact Hall]. rewrite <- Hoid. now apply Hone. }
  split.
  - intros w1.
    destruct (processOrder_advances id w o Hid Hfind) as [_ Hnext].
    pose proof (processOrder_found id w o Hid Hfind) as Hw1. fold w1 in Hnext, Hw1.
    assert (Husers : users w1 = users w) by now rewrite Hw1.
    split.
    + rewrite (getSingleOrder_uncached id w1 Hid); [now rewrite Hnext, Husers|].
      rewrite Hw1. simpl. apply Htags.
    + rewrite allOrders_uncached; [now rewrite Husers|].
      rewrite Hw1. simpl. apply Htags.
  - intros Hunique w1.
    assert (Hw1 : w1
                  = mkWorld
                      (invalidateCache
                         (mkInvalidateCacheProps false true true false (Some (user o))
                            (Some (o_id o)) []) (redis w))
                      (products w)
                      (delete_first (fun x => String.eqb (o_id x) id) (orders w))
                      (reviews w) (users w) (cloudinary_deleted w)).
    { subst w1. unfold deleteOrder.
      rewrite (proj2 (truthy_str_Some id) Hid), Hfind. simpl.
      unfold Order_deleteOne. now rewrite Hoid. }
    split.
    + rewrite (getSingleOrder_uncached id w1 Hid).
      * rewrite Hw1. cbn [orders].
        pose proof (delete_first_gone o_id id (orders w) Hunique) as Hgone.
        unfold Order_findById. now rewrite Hgone.
      * rewrite Hw1. simpl. apply Htags.
    + rewrite allOrders_uncached; [now rewrite Hw1|].
      rewrite Hw1. simpl. apply Htags.
Qed.

End ReadAfterWrite.

(** ** Pages of the product list *)

Lemma ceil_div_bounds (a b : Z) :
  0 < b -> a <= ceil_div a b * b < a + b.
Proof.
  intros Hb. unfold ceil_div.
  pose proof (Z.div_mod (- a) b ltac:(lia)) as Hdiv.
  pose proof (Z.mod_pos_bound (- a) b Hb) as Hmod.
  nia.
Qed.

Lemma Number_or_not_zero `{Collaborators} (s : option string) (d : Z) :
  d <> 0 -> Number_or s d <> Int 0.
Proof.
  intros Hd. unfold Number_or. destruct (s ≫= Number) as [[z|t]|]; simpl.
  - destruct (Z.eqb_spec z 0); congruence.
  - discriminate.
  - congruence.
Qed.

Section ProductPages.
Context `{Collaborators}.

(** X16.  [getAllProducts] on a miss, with a number of products per page that is
    a positive integer: the number of pages it answers is the least that
    holds every product the filter selects (none for no product), the page
    it asks the store for is never [0], and the answer is stored under the
    key for 30 seconds. *)
Theorem getAllProducts_pages (q : ProductsQuery) (w : World) (fetched : list Product)
    (per_page : Z) :
  let limit := Number_or PRODUCT_PER_PAGE 8 in
  let page := Number_or (q_page q) 1 in
  let filtered := Product_find (base_query q) (products w) in
  cache_hit (redis_get (redis w) (products_key q)) = false ->
  limit = Int per_page ->
  0 < per_page ->
  sort_limit_skip (sort_order q) limit (pred_times page limit) filtered = Some fetched ->
  exists n,
    fst (getAllProducts q w)
    = Json 200 true [("products", VProducts fetched); ("totalPage", VNumber (Int n))]
    /\ Z.of_nat (length filtered) <= n * per_page < Z.of_nat (length filtered) + per_page
    /\ (filtered = [] -> n = 0)
    /\ page <> Int 0 /\ (q_page q = None -> page = Int 1)
    /\ redis (snd (getAllProducts q w)) !! products_key q
       = Some (mkCacheEntry
                 (JSON_stringify
                    (VObject
                       [("products", VProducts fetched); ("totalPage", VNumber (Int n))]))
                 30).
Proof.
  intros limit page filtered Hmiss Hlimit Hpositive Hfetch.
  exists (ceil_div (Z.of_nat (length filtered)) per_page).
  assert (Hrun : getAllProducts q w
                 = (Json 200 true
                      [("products", VProducts fetched);
                       ("totalPage",
                        VNumber (Int (ceil_div (Z.of_nat (length filtered)) per_page)))],
                    set_redis w
                      (redis_setex (redis w) (products_key q) 30
                         (JSON_stringify
                            (VObject
                               [("products", VProducts fetched);
                                ("totalPage",
                                 VNumber
                                   (Int (ceil_div (Z.of_nat (length filtered))
                                           per_page)))]))))).
  { unfold getAllProducts. rewrite Hmiss.
    unfold sort_order in Hfetch. fold limit. fold page. fold filtered.
    rewrite Hfetch. cbv zeta. rewrite Hlimit. unfold Math_ceil_div.
    destruct (Z.eqb_spec per_page 0); [lia|reflexivity]. }
  rewrite Hrun. simpl.
  split; [reflexivity|]. split; [now apply ceil_div_bounds|]. split; [|split; [|split]].
  - intros ->. reflexivity.
  - now apply Number_or_not_zero.
  - intros Hnone. subst page. unfold Number_or. now rewrite Hnone.
  - unfold redis_setex. apply lookup_insert_eq.
Qed.

End ProductPages.

(** ** The cache under the handlers that write *)

Section WritersAndCache.
Context `{Collaborators}.










End WritersAndCache.

(** ** The sample collaborators meet the hypotheses *)




Lemma evict_dropped (keys : list string) (c : gmap string CacheEntry) (key : string) :
  key ∈ keys -> foldr delete c keys !! key = None.
Proof.
  induction keys as [|k keys IH]; simpl.
  - intros Hin. now apply not_elem_of_nil in Hin.
  - intros Hin. destruct (decide (k = key)) as [->|Hne].
    + apply lookup_delete_eq.
    + rewrite lookup_delete_ne by exact Hne. apply IH.
      apply elem_of_cons in Hin as [Heq|Hin]; [congruence|exact Hin].
Qed.

Lemma Evicting_drops_product_keys : @drops_product_keys Evicting.collaborators.
Proof.
  intros tags c Hproduct. simpl. unfold Evicting.evict, Evicting.stale_keys.
  rewrite Hproduct.
  split; [|split; [|split]]; try (intros id Hid); apply evict_dropped;
    apply elem_of_app; left; apply elem_of_app.
  - left. set_solver.
  - left. set_solver.
  - left. set_solver.
  - right. apply list_elem_of_fmap. now exists id.
Qed.

Lemma Evicting_drops_order_keys : @drops_order_keys Evicting.collaborators.
Proof.
  intros tags c Horder. simpl. unfold Evicting.evict, Evicting.stale_keys.
  rewrite Horder.
  split; [|split]; try (intros x Hx; rewrite Hx); apply evict_dropped;
    apply elem_of_app; right; apply elem_of_app; left.
  - set_solver.
  - set_solver.
  - destruct (ic_userId tags); set_solver.
Qed.

(** ** The further properties at concrete requests *)

Module RunMore.

Import Sample.

Lemma read_after_miss_hits_witness :
  let cached := snd (handle GetAdminProducts empty_world) in
  let restocked := mkWorld (redis cached) [mug] [] [] [] [] in
  handle GetAdminProducts restocked
  = (Json 200 true [("products", VJson (JArr []))], restocked).
Proof.
  cbv zeta.
  refine (proj2 (read_after_miss_hits GetAdminProducts KAllProducts empty_world
                   (VProducts []) [("products", VProducts [])]
                   [("products", VJson (JArr []))] (JArr [])
                   eq_refl eq_refl eq_refl _ eq_refl eq_refl)
            (mkWorld (redis (snd (handle GetAdminProducts empty_world))) [mug] [] [] [] [])
            eq_refl).
  simpl. discriminate.
Defined.

Lemma deleteOrder_removes_witness :
  Order_findById (orders (snd (deleteOrder "o1" shop))) "o1" = None
  /\ fst (processOrder "o1" (snd (deleteOrder "o1" shop))) = error "Order not found" 404.
Proof.
  destruct (deleteOrder_removes "o1" shop parcel ltac:(discriminate) eq_refl
              (NoDup_singleton "o1"))
    as (_ & Hgone & _ & _ & _ & _ & _ & _ & _ & Hprocess).
  split; [exact Hgone|exact Hprocess].
Defined.

Lemma order_ids_stay_unique_witness :
  NoDup (o_id <$> orders (snd (newOrder two_mugs "o2" shop))).
Proof.
  exact (proj1 (proj2 (proj2 (order_ids_stay_unique shop (NoDup_singleton "o1"))))
           two_mugs "o2" eq_refl).
Defined.

(** With a [reduceStock] that empties the stock and then throws, the order
    of two mugs is stored, the stock of the mug is [0], and the handler
    throws. *)
Lemma newOrder_stock_failure_witness :
  let run := @newOrder Shortage.collaborators two_mugs "o2" shop in
  fst run = Throws
  /\ o_id <$> orders (snd run) = ["o1"; "o2"]
  /\ stock <$> products (snd run) = [Int 0]
  /\ redis (snd run) = redis shop.
Proof.
  cbv zeta.
  assert (Hcreated : @Order_create Shortage.collaborators two_mugs
                     = Some (mkOrder "" (JObj []) [mkOrderItem "p1" 2] "u1" (Int 10)
                               (Int 1) None None (Int 11) "Processing"))
    by reflexivity.
  destruct (@newOrder_stock_failure Shortage.collaborators two_mugs "o2" shop _
              eq_refl Hcreated eq_refl)
    as (Hthrows & Hstored & Hstock & Hcache & _).
  split; [exact Hthrows|]. split; [now rewrite Hstored|].
  split; [now rewrite Hstock|exact Hcache].
Defined.

Lemma newOrder_then_processOrder_witness :
  exists o', Order_findById
               (orders (snd (processOrder "o2" (snd (newOrder two_mugs "o2" shop))))) "o2"
             = Some o'
             /\ status o' = "Shipped".
Proof.
  assert (Hcreated : Order_create two_mugs
                     = Some (mkOrder "" (JObj []) [mkOrderItem "p1" 2] "u1" (Int 10)
                               (Int 1) None None (Int 11) "Processing"))
    by reflexivity.
  destruct (newOrder_then_processOrder two_mugs "o2" shop _
              eq_refl Hcreated ltac:(discriminate) eq_refl)
    as (_ & _ & o' & Hfound & _ & Hshipped).
  exists o'. split; [exact Hfound|exact (Hshipped eq_refl)].
Defined.


Lemma deleteProduct_removes_witness :
  Product_findById (products (snd (deleteProduct "p1" shop))) "p1" = None
  /\ reviews (snd (deleteProduct "p1" shop)) = reviews shop.
Proof.
  destruct (deleteProduct_removes "p1" shop mug eq_refl (NoDup_singleton "p1"))
    as (_ & Hgone & _ & _ & _ & Hreviews & _).
  split; [exact Hgone|exact Hreviews].
Defined.

Lemma product_ids_stay_unique_witness :
  NoDup (p_id <$> products (snd (newProduct cup (Some ["cup.png"]) "p2" (0%Q, 0) shop))).
Proof.
  exact (proj1 (proj2 (proj2 (proj2 (product_ids_stay_unique shop
                                       (NoDup_singleton "p1")))))
           cup (Some ["cup.png"]) "p2" (0%Q, 0) eq_refl).
Defined.

Lemma product_read_after_write_witness :
  let body := mkUpdateProductBody (Some (JStr "Cup")) None None None None in
  let w1 := snd (@updateProduct Evicting.collaborators "p1" body None Evicting.stale_shop) in
  redis_get (redis Evicting.stale_shop) "product-p1" = Some "{}"
  /\ exists p', Product_findById (products w1) "p1" = Some p'
                /\ name p' = "Cup"
                /\ fst (@getSingleProduct Evicting.collaborators "p1" w1)
                   = Json 200 true [("product", VProduct p')].
Proof.
  cbv zeta. split; [reflexivity|].
  destruct (proj1 (@product_read_after_write Evicting.collaborators "p1"
                     Evicting.stale_shop mug Evicting_drops_product_keys eq_refl)
              (mkUpdateProductBody (Some (JStr "Cup")) None None None None) None eq_refl)
    as (p' & Hfound & Hsaved & Hread & _).
  exists p'. split; [exact Hfound|]. split; [|exact Hread].
  now injection Hsaved as <-.
Defined.

Lemma order_read_after_write_witness :
  let w1 := snd (@processOrder Evicting.collaborators "o1" Evicting.stale_shop) in
  redis_get (redis Evicting.stale_shop) "order-o1" = Some "{}"
  /\ fst (@getSingleOrder Evicting.collaborators "o1" w1)
     = Json 200 true
         [("order",
           VPopulatedOrder
             (populate_order_user (users Evicting.stale_shop)
                (set_status parcel "Shipped")))].
Proof.
  cbv zeta. split; [reflexivity|].
  exact (proj1 (proj1 (@order_read_after_write Evicting.collaborators "o1"
                         Evicting.stale_shop parcel Evicting_drops_order_keys
                         ltac:(discriminate) eq_refl))).
Defined.

Lemma getAllProducts_pages_witness :
  exists n,
    fst (getAllProducts (mkProductsQuery None None None None None) shop)
    = Json 200 true [("products", VProducts [mug]); ("totalPage", VNumber (Int n))]
    /\ 1 <= n * 8 < 1 + 8.
Proof.
  assert (Hlimit : Number_or PRODUCT_PER_PAGE 8 = Int 8) by reflexivity.
  destruct (getAllProducts_pages (mkProductsQuery None None None None None) shop [mug] 8
              eq_refl Hlimit eq_refl eq_refl)
    as (n & Hrun & Hbounds & _).
  exists n. split; [exact Hrun|exact Hbounds].
Defined.


End RunMore.
